(** * The GitHub Projects bridge of mcp-gh-project

    A shallow embedding of [src/mcp_gh_project/github_client.py]: the JSON
    values that GitHub's GraphQL endpoint returns, the Python operations the
    client applies to them ([.get], subscripting, truthiness, [or]), the
    [GitHubClient] methods written in a monad that records every request sent
    to the network and propagates exceptions, and the properties of those
    methods.

    Conventions.
    - A decoded JSON document is a [json] value.  Numbers are integers;
      Python floats are outside the model.
    - A Python [dict] with string keys is a [gmap string json].
    - The network is a function [post] from the request to the HTTP outcome;
      every method sends at most one request.
    - [pydantic] is an external library: what its validation does to a field
      is the [Pydantic] interface, of which only "a value that already has the
      declared type is kept as it is" is assumed. *)

From stdpp Require Import gmap strings list fin_maps.
From Stdlib Require Import ZArith.

Set Warnings "-register-all".
Local Open Scope Z_scope.

(** ** JSON values as Python objects *)

Inductive json : Type :=
| JNull
| JBool (b : bool)
| JInt (z : Z)
| JStr (s : string)
| JList (l : list json)
| JObj (m : gmap string json).

Abbreviation pydict := (gmap string json).

(** The exceptions the client can raise or let through.  [ValueError msg] is
    an exception of the class [ValueError] itself, as the statements
    [raise ValueError(msg)] of the client build it; [ValidationError], which
    pydantic raises, and [JSONDecodeError], which [response.json()] raises on
    a body that is not JSON, belong to subclasses of [ValueError]. *)
Inductive exn : Type :=
| ValueError (msg : string)
| KeyError (key : string)
| AttributeError
| TypeError
| HTTPError
| GraphQLErrors (errors : json)
| GenericException (msg : string)
| ValidationError
| JSONDecodeError.

(** [isinstance(e, ValueError)]. *)
Definition is_ValueError (e : exn) : bool :=
  match e with
  | ValueError _ | ValidationError | JSONDecodeError => true
  | _ => false
  end.

Definition result (A : Type) : Type := (exn + A)%type.

Definition Ok {A} (a : A) : result A := inr a.
Definition Raise {A} (e : exn) : result A := inl e.

#[global] Instance result_ret : MRet result := fun _ a => inr a.
#[global] Instance result_bind : MBind result := fun _ _ f m =>
  match m with
  | inl e => inl e
  | inr a => f a
  end.

(** Python truthiness: [bool(v)]. *)
Definition truthy (v : json) : bool :=
  match v with
  | JNull => false
  | JBool b => b
  | JInt z => negb (z =? 0)
  | JStr s => match s with EmptyString => false | String _ _ => true end
  | JList l => match l with [] => false | _ :: _ => true end
  | JObj m => match map_to_list m with [] => false | _ :: _ => true end
  end.

(** [a or b]: the first operand when it is truthy, the second otherwise. *)
Definition py_or (a b : json) : json := if truthy a then a else b.

(** An argument declared [Optional[str]]. *)
Definition opt_json (o : option string) : json :=
  match o with
  | None => JNull
  | Some s => JStr s
  end.

(** [d.get(key, default)]; only a [dict] has the method. *)
Definition py_get (d : json) (key : string) (default : json) : result json :=
  match d with
  | JObj m => Ok (match m !! key with Some v => v | None => default end)
  | _ => Raise AttributeError
  end.

(** [d[key]] with a string key. *)
Definition py_getitem (d : json) (key : string) : result json :=
  match d with
  | JObj m => match m !! key with Some v => Ok v | None => Raise (KeyError key) end
  | _ => Raise TypeError
  end.

Definition is_str (key : string) (v : json) : bool :=
  match v with
  | JStr s => String.eqb s key
  | _ => false
  end.

(** [key in d] for a string [key]. *)
Definition py_contains (key : string) (d : json) : result bool :=
  match d with
  | JObj m => Ok (match m !! key with Some _ => true | None => false end)
  | JList l => Ok (existsb (is_str key) l)
  | JStr s => Ok (match String.index 0 key s with Some _ => true | None => false end)
  | _ => Raise TypeError
  end.

Fixpoint chars (s : string) : list json :=
  match s with
  | EmptyString => []
  | String c s' => JStr (String c EmptyString) :: chars s'
  end.

(** What [for x in v] ranges over.  A [gmap] lists its keys in its own order,
    not in the order of insertion; the methods below subscript or call [.get]
    on each element, which raises on any string, so that order shows in no
    outcome. *)
Definition py_iter (v : json) : result (list json) :=
  match v with
  | JList l => Ok l
  | JObj m => Ok (JStr <$> (map_to_list m).*1)
  | JStr s => Ok (chars s)
  | _ => Raise TypeError
  end.

(** A list comprehension whose element expression may raise: elements are
    evaluated left to right and the first exception ends the evaluation. *)
Fixpoint comprehension {A B} (f : A -> result B) (l : list A) : result (list B) :=
  match l with
  | [] => Ok []
  | x :: l' => y ← f x; ys ← comprehension f l'; Ok (y :: ys)
  end.

(** ** pydantic *)

Class Pydantic : Type := {
  validate_str : json -> option string;
  validate_int : json -> option Z;
  validate_dict : json -> option pydict;
  validate_str_str : forall s, validate_str (JStr s) = Some s;
  validate_int_int : forall z, validate_int (JInt z) = Some z;
  validate_dict_obj : forall m, validate_dict (JObj m) = Some m
}.

(** Validation that accepts a value of the declared type and nothing else. *)
Definition strict_str (v : json) : option string :=
  match v with JStr s => Some s | _ => None end.
Definition strict_int (v : json) : option Z :=
  match v with JInt z => Some z | _ => None end.
Definition strict_dict (v : json) : option pydict :=
  match v with JObj m => Some m | _ => None end.

Definition strict_pydantic : Pydantic :=
  {| validate_str := strict_str;
     validate_int := strict_int;
     validate_dict := strict_dict;
     validate_str_str := fun _ => eq_refl;
     validate_int_int := fun _ => eq_refl;
     validate_dict_obj := fun _ => eq_refl |}.

Definition validated {A} (o : option A) : result A :=
  match o with
  | Some a => Ok a
  | None => Raise ValidationError
  end.

(** A field declared [Optional[T]]: [None] is accepted as it is. *)
Definition validate_optional {A} (f : json -> option A) (v : json) : result (option A) :=
  match v with
  | JNull => Ok None
  | _ => a ← validated (f v); Ok (Some a)
  end.

Module GitHubProject.
Record t : Type := new {
  id : string;
  number : Z;
  title : string;
  body : option string;
  state : string;
  url : string;
  owner : pydict
}.
End GitHubProject.

Module GitHubProjectItem.
Record t : Type := new {
  id : string;
  type : string;
  content : option pydict;
  field_values : pydict;
  project : pydict
}.
End GitHubProjectItem.

(** The call [GitHubProject(id=..., ...)]: every field is validated against
    its declared type. *)
Definition GitHubProject_init `{Pydantic}
    (id number title body state url owner : json) : result GitHubProject.t :=
  id' ← validated (validate_str id);
  number' ← validated (validate_int number);
  title' ← validated (validate_str title);
  body' ← validate_optional validate_str body;
  state' ← validated (validate_str state);
  url' ← validated (validate_str url);
  owner' ← validated (validate_dict owner);
  Ok (GitHubProject.new id' number' title' body' state' url' owner').

(** The call [GitHubProjectItem(id=..., ...)].  [foreign_key] records that the
    dict given as [field_values] holds a key that is not a string, which the
    declared type [Dict[str, Any]] rejects. *)
Definition GitHubProjectItem_init `{Pydantic}
    (id type content : json) (field_values : pydict) (foreign_key : bool)
    (project : pydict) : result GitHubProjectItem.t :=
  id' ← validated (validate_str id);
  type' ← validated (validate_str type);
  content' ← validate_optional validate_dict content;
  field_values' ← (if foreign_key then Raise ValidationError
                   else validated (validate_dict (JObj field_values)));
  project' ← validated (validate_dict (JObj project));
  Ok (GitHubProjectItem.new id' type' content' field_values' project').

(** ** The client and its configuration *)

Module GitHubClient.
Record t : Type := new {
  token : string;
  base_url : string;
  headers : gmap string string
}.
End GitHubClient.

Definition truthy_opt (o : option string) : bool := truthy (opt_json o).

(** [a or b] on two [Optional[str]] values. *)
Definition opt_or (a b : option string) : option string :=
  if truthy_opt a then a else b.

(** [os.getenv(name)] in the process environment [environ]. *)
Definition os_getenv (environ : gmap string string) (name : string) : option string :=
  environ !! name.

(** [GitHubClient.__init__]. *)
Definition GitHubClient_init (environ : gmap string string) (token : option string)
    : result GitHubClient.t :=
  let msg := "GitHub token is required. Set GITHUB_TOKEN environment variable." in
  match opt_or token (os_getenv environ "GITHUB_TOKEN") with
  | None => Raise (ValueError msg)
  | Some tok =>
      if negb (truthy (JStr tok)) then Raise (ValueError msg)
      else Ok (GitHubClient.new tok "https://api.github.com/graphql"
                 {[ "Authorization" := "Bearer " +:+ tok;
                    "Content-Type" := "application/json";
                    "Accept" := "application/vnd.github.v3+json" ]})
  end.

(** ** Requests *)

(** The eight GraphQL documents of the client, by the method (and branch)
    that holds each. *)
Inductive gql_document : Type :=
| ListProjectsByRepository
| ListProjectsByOwner
| GetProject
| ListProjectItems
| AddProjectV2DraftIssue
| AddProjectV2ItemById
| GetProjectItem
| DeleteProjectV2Item.

Definition is_mutation (q : gql_document) : bool :=
  match q with
  | AddProjectV2DraftIssue | AddProjectV2ItemById | DeleteProjectV2Item => true
  | _ => false
  end.

Record request : Type := Request {
  url : string;
  sent_headers : gmap string string;
  query : gql_document;
  variables : pydict
}.

(** The outcome of the POST: a failure of the transport (no connection, a
    status that [raise_for_status] rejects), the decoded body, or a body that
    [response.json()] cannot decode. *)
Inductive http_response : Type :=
| HttpFailure
| HttpBody (data : json)
| HttpNotJson.

Definition request_of (self : GitHubClient.t) (q : gql_document) (vars : pydict) : request :=
  Request (GitHubClient.base_url self) (GitHubClient.headers self) q vars.

(** A computation that sends requests: it extends the list of the requests
    sent so far and ends in a value or an exception. *)
Definition M (A : Type) : Type := list request -> list request * result A.

#[global] Instance M_ret : MRet M := fun _ a tr => (tr, inr a).
#[global] Instance M_bind : MBind M := fun _ _ f m tr =>
  match m tr with
  | (tr', inl e) => (tr', inl e)
  | (tr', inr a) => f a tr'
  end.

Definition lift {A} (r : result A) : M A := fun tr => (tr, r).
Definition raise {A} (e : exn) : M A := lift (Raise e).

Definition requests {A} (m : M A) (tr : list request) : list request := (m tr).1.
Definition outcome {A} (m : M A) (tr : list request) : result A := (m tr).2.

(** ** The methods of [GitHubClient] *)

Section Bridge.
Context `{Pydantic}.
Variable post : request -> http_response.

(** [_execute_query].  Every caller passes a dict of variables, on which
    [variables or {}] changes nothing.  [response_data] is the part of the
    method that follows the POST. *)
Definition response_data (response : http_response) : result json :=
  match response with
  | HttpFailure => Raise HTTPError
  | HttpNotJson => Raise JSONDecodeError
  | HttpBody data =>
      has_errors ← py_contains "errors" data;
      if has_errors : bool then
        errors ← py_getitem data "errors";
        Raise (GraphQLErrors errors)
      else py_get data "data" (JObj ∅)
  end.

Definition execute_query (self : GitHubClient.t) (q : gql_document) (vars : pydict)
    : M json :=
  fun tr =>
    let req := request_of self q vars in
    (tr ++ [req], response_data (post req)).

(** The expression [GitHubProject(id=project["id"], ...)] that
    [list_projects] and [get_project] both apply to a project node. *)
Definition project_of_node (project : json) : result GitHubProject.t :=
  id ← py_getitem project "id";
  number ← py_getitem project "number";
  title ← py_getitem project "title";
  body ← py_get project "shortDescription" JNull;
  public ← py_get project "public" JNull;
  let state := JStr (if truthy public then "open" else "private") in
  url ← py_getitem project "url";
  owner ← py_getitem project "owner";
  GitHubProject_init id number title body state url owner.

(** The [if]/[elif]/[else] of [list_projects], which ends with
    [projects_data] bound or with the exception raised. *)
Definition list_projects_data (self : GitHubClient.t) (owner repo : option string)
    : M json :=
  if truthy_opt repo && truthy_opt owner then
    data ← execute_query self ListProjectsByRepository
             {[ "owner" := opt_json owner; "repo" := opt_json repo ]};
    lift (repository ← py_get data "repository" (JObj ∅);
          projectsV2 ← py_get repository "projectsV2" (JObj ∅);
          py_get projectsV2 "nodes" (JList []))
  else if truthy_opt owner then
    data ← execute_query self ListProjectsByOwner {[ "owner" := opt_json owner ]};
    lift (repositoryOwner ← py_get data "repositoryOwner" (JObj ∅);
          projectsV2 ← py_get repositoryOwner "projectsV2" (JObj ∅);
          py_get projectsV2 "nodes" (JList []))
  else
    raise (ValueError "Either 'owner' or both 'owner' and 'repo' must be provided").

Definition list_projects (self : GitHubClient.t) (owner repo : option string)
    : M (list GitHubProject.t) :=
  projects_data ← list_projects_data self owner repo;
  lift (projects ← py_iter projects_data;
        comprehension project_of_node projects).

Definition get_project (self : GitHubClient.t) (project_id : string)
    : M GitHubProject.t :=
  data ← execute_query self GetProject {[ "projectId" := JStr project_id ]};
  project_data ← lift (py_get data "node" JNull);
  if negb (truthy project_data) then
    raise (ValueError ("Project with ID " +:+ project_id +:+ " not found"))
  else lift (project_of_node project_data).

(** [field_value.get("field", {}).get("name", default)]. *)
Definition field_name (field_value default : json) : result json :=
  field ← py_get field_value "field" (JObj ∅);
  py_get field "name" default.

(** [field_value.get("text") or field_value.get("number")
     or field_value.get("name")]. *)
Definition extracted_value (field_value : json) : result json :=
  text ← py_get field_value "text" JNull;
  number ← py_get field_value "number" JNull;
  name ← py_get field_value "name" JNull;
  Ok (py_or (py_or text number) name).

(** Storing [key: value] in the dict under construction.  A list or a dict
    cannot be hashed; any other key that is not a string is stored by
    Python and is remembered here by the flag alone. *)
Definition dict_store (key value : json) (acc : pydict * bool) : result (pydict * bool) :=
  match key with
  | JStr s => Ok (<[s := value]> acc.1, acc.2)
  | JList _ | JObj _ => Raise TypeError
  | JNull | JBool _ | JInt _ => Ok (acc.1, true)
  end.

(** The dict comprehension of [list_project_items], from the entries stored
    so far. *)
Fixpoint field_values_of (nodes : list json) (acc : pydict * bool)
    : result (pydict * bool) :=
  match nodes with
  | [] => Ok acc
  | field_value :: rest =>
      cond ← field_name field_value JNull;
      if truthy cond then
        key ← field_name field_value (JStr "");
        value ← extracted_value field_value;
        acc' ← dict_store key value acc;
        field_values_of rest acc'
      else field_values_of rest acc
  end.

(** The expression [GitHubProjectItem(id=item["id"], ...)] of
    [list_project_items]. *)
Definition item_of_node (project_id : string) (item : json)
    : result GitHubProjectItem.t :=
  id ← py_getitem item "id";
  type ← py_getitem item "type";
  content ← py_get item "content" JNull;
  fieldValues ← py_get item "fieldValues" (JObj ∅);
  nodes ← py_get fieldValues "nodes" (JList []);
  field_value_nodes ← py_iter nodes;
  field_values ← field_values_of field_value_nodes (∅, false);
  GitHubProjectItem_init id type content field_values.1 field_values.2
    {[ "id" := JStr project_id ]}.

Definition list_project_items (self : GitHubClient.t) (project_id : string)
    : M (list GitHubProjectItem.t) :=
  data ← execute_query self ListProjectItems {[ "projectId" := JStr project_id ]};
  lift (node ← py_get data "node" (JObj ∅);
        items ← py_get node "items" (JObj ∅);
        items_data ← py_get items "nodes" (JList []);
        item_nodes ← py_iter items_data;
        comprehension (item_of_node project_id) item_nodes).

(** The end of [create_project_item], from [if not item_data] on. *)
Definition created_item (project_id : string) (item_data : json)
    : result GitHubProjectItem.t :=
  if negb (truthy item_data) then
    Raise (GenericException "Failed to create project item")
  else
    id ← py_getitem item_data "id";
    type ← py_getitem item_data "type";
    content ← py_get item_data "content" JNull;
    GitHubProjectItem_init id type content ∅ false {[ "id" := JStr project_id ]}.

Definition create_project_item (self : GitHubClient.t)
    (project_id content_type : string) (content_id title body : option string)
    : M GitHubProjectItem.t :=
  if String.eqb content_type "DRAFT_ISSUE" then
    data ← execute_query self AddProjectV2DraftIssue
             {[ "projectId" := JStr project_id;
                "title" := py_or (opt_json title) (JStr "New Draft Issue");
                "body" := opt_json body ]};
    lift (payload ← py_get data "addProjectV2DraftIssue" (JObj ∅);
          item_data ← py_get payload "projectItem" JNull;
          created_item project_id item_data)
  else if negb (truthy_opt content_id) then
    raise (ValueError "content_id is required for non-draft issues")
  else
    data ← execute_query self AddProjectV2ItemById
             {[ "projectId" := JStr project_id; "contentId" := opt_json content_id ]};
    lift (payload ← py_get data "addProjectV2ItemById" (JObj ∅);
          item_data ← py_get payload "item" JNull;
          created_item project_id item_data).

Definition update_project_item (self : GitHubClient.t)
    (project_id item_id : string) (field_updates : pydict)
    : M GitHubProjectItem.t :=
  data ← execute_query self GetProjectItem {[ "itemId" := JStr item_id ]};
  item_data ← lift (py_get data "node" JNull);
  if negb (truthy item_data) then
    raise (ValueError ("Project item with ID " +:+ item_id +:+ " not found"))
  else
    lift (id ← py_getitem item_data "id";
          type ← py_getitem item_data "type";
          content ← py_get item_data "content" JNull;
          GitHubProjectItem_init id type content field_updates false
            {[ "id" := JStr project_id ]}).

Definition delete_project_item (self : GitHubClient.t) (project_id item_id : string)
    : M bool :=
  data ← execute_query self DeleteProjectV2Item
           {[ "projectId" := JStr project_id; "itemId" := JStr item_id ]};
  lift (payload ← py_get data "deleteProjectV2Item" (JObj ∅);
        deletedItemId ← py_get payload "deletedItemId" JNull;
        Ok (truthy deletedItemId)).

End Bridge.

(** ** The tool catalogue ([tools.py]) *)

Record property_schema : Type := PropertySchema {
  property_type : string;
  property_description : string;
  property_enum : option (list string);
  additionalProperties : option bool
}.

Record input_schema : Type := InputSchema {
  schema_type : string;
  properties : list (string * property_schema);
  required : list string
}.

Module Tool.
Record t : Type := new {
  name : string;
  description : string;
  inputSchema : input_schema
}.
End Tool.

Definition string_property (description : string) : property_schema :=
  PropertySchema "string" description None None.

Definition TOOLS : list Tool.t :=
  [ Tool.new "list_projects"
      "List GitHub projects for a user, organization, or repository"
      (InputSchema "object"
         [ ("owner", string_property "The owner (user or organization) of the projects");
           ("repo", string_property
              "Optional repository name to list projects for a specific repo") ]
         ["owner"]);
    Tool.new "get_project"
      "Get details of a specific GitHub project"
      (InputSchema "object"
         [ ("project_id", string_property "The ID of the project to retrieve") ]
         ["project_id"]);
    Tool.new "list_project_items"
      "List all items (issues, PRs, draft issues) in a GitHub project"
      (InputSchema "object"
         [ ("project_id", string_property "The ID of the project to list items for") ]
         ["project_id"]);
    Tool.new "create_project_item"
      "Create a new item in a GitHub project"
      (InputSchema "object"
         [ ("project_id", string_property "The ID of the project to add the item to");
           ("content_type",
            PropertySchema "string" "The type of content to add to the project"
              (Some ["ISSUE"; "PULL_REQUEST"; "DRAFT_ISSUE"]) None);
           ("content_id", string_property
              "The ID of the existing issue or PR (required for ISSUE and PULL_REQUEST types)");
           ("title", string_property "Title for draft issues");
           ("body", string_property "Body content for draft issues") ]
         ["project_id"; "content_type"]);
    Tool.new "update_project_item"
      "Update field values of a project item"
      (InputSchema "object"
         [ ("project_id", string_property "The ID of the project containing the item");
           ("item_id", string_property "The ID of the project item to update");
           ("field_updates",
            PropertySchema "object" "Dictionary of field names and their new values"
              None (Some true)) ]
         ["project_id"; "item_id"]);
    Tool.new "delete_project_item"
      "Remove an item from a GitHub project"
      (InputSchema "object"
         [ ("project_id", string_property "The ID of the project containing the item");
           ("item_id", string_property "The ID of the project item to delete") ]
         ["project_id"; "item_id"]) ].

(** ** The dispatcher ([server.py]) *)

(** The arguments of a call, with the types the catalogue declares for
    them: every argument is a string but [field_updates], an object.  Which
    arguments are present is left open. *)
Record call_arguments : Type := CallArguments {
  strings : gmap string string;
  field_updates : option pydict
}.

Definition no_arguments : call_arguments := CallArguments ∅ None.

(** What a method returned, and the text made of it: [str(result)] for a
    result, [f"Error: {e!s}"] for an exception.  The rendering itself is not
    modelled. *)
Inductive tool_result : Type :=
| ProjectList (projects : list GitHubProject.t)
| ProjectResult (project : GitHubProject.t)
| ItemList (items : list GitHubProjectItem.t)
| ItemResult (item : GitHubProjectItem.t)
| Deleted (deleted : bool).

Inductive rendered : Type :=
| StrOf (result : tool_result)
| ErrorOf (e : exn).

Record text_content : Type := TextContent {
  content_kind : string;
  text : rendered
}.

(** [arguments[key]] and [arguments.get(key)] on a string argument. *)
Definition arguments_getitem (arguments : call_arguments) (key : string) : result string :=
  match strings arguments !! key with
  | Some s => Ok s
  | None => Raise (KeyError key)
  end.

Definition arguments_get (arguments : call_arguments) (key : string) : option string :=
  strings arguments !! key.

(** [_handle_unknown_tool]. *)
Definition handle_unknown_tool (name : string) : result (list text_content) :=
  Raise (ValueError ("Unknown tool: " +:+ name)).

Section Server.
Context `{Pydantic}.
Variable post : request -> http_response.
Variable environ : gmap string string.

(** The [return] that ends the [try] block. *)
Definition respond (result : tool_result) : M (list text_content) :=
  mret [TextContent "text" (StrOf result)].

(** The [try] block of [handle_call_tool]. *)
Definition call_tool (name : string) (arguments : call_arguments)
    : M (list text_content) :=
  github_client ← lift (GitHubClient_init environ None);
  if String.eqb name "list_projects" then
    result ← list_projects post github_client
                (arguments_get arguments "owner") (arguments_get arguments "repo");
    respond (ProjectList result)
  else if String.eqb name "get_project" then
    project_id ← lift (arguments_getitem arguments "project_id");
    result ← get_project post github_client project_id;
    respond (ProjectResult result)
  else if String.eqb name "list_project_items" then
    project_id ← lift (arguments_getitem arguments "project_id");
    result ← list_project_items post github_client project_id;
    respond (ItemList result)
  else if String.eqb name "create_project_item" then
    project_id ← lift (arguments_getitem arguments "project_id");
    content_type ← lift (arguments_getitem arguments "content_type");
    result ← create_project_item post github_client project_id content_type
                (arguments_get arguments "content_id") (arguments_get arguments "title")
                (arguments_get arguments "body");
    respond (ItemResult result)
  else if String.eqb name "update_project_item" then
    project_id ← lift (arguments_getitem arguments "project_id");
    item_id ← lift (arguments_getitem arguments "item_id");
    result ← update_project_item post github_client project_id item_id
                (default ∅ (field_updates arguments));
    respond (ItemResult result)
  else if String.eqb name "delete_project_item" then
    project_id ← lift (arguments_getitem arguments "project_id");
    item_id ← lift (arguments_getitem arguments "item_id");
    result ← delete_project_item post github_client project_id item_id;
    respond (Deleted result)
  else lift (handle_unknown_tool name).

(** [handle_call_tool]: missing arguments are the empty dict, and an
    exception of the [try] block becomes the text of the answer. *)
Definition handle_call_tool (name : string) (arguments : option call_arguments)
    (tr : list request) : list request * list text_content :=
  let arguments := default no_arguments arguments in
  match call_tool name arguments tr with
  | (tr', inr contents) => (tr', contents)
  | (tr', inl e) => (tr', [TextContent "text" (ErrorOf e)])
  end.

End Server.

(** ** Vocabulary of the properties *)

(** An argument is available when it is a string that is not empty, which is
    what [if token], [if owner] and the like test. *)
Definition available (o : option string) (s : string) : Prop := o = Some s /\ s <> "".
Definition unavailable (o : option string) : Prop := o = None \/ o = Some "".

Definition token_required : string :=
  "GitHub token is required. Set GITHUB_TOKEN environment variable.".

Definition either_required : string :=
  "Either 'owner' or both 'owner' and 'repo' must be provided".

Definition content_id_required : string :=
  "content_id is required for non-draft issues".

Create HintDb silent.

(** A computation that sends nothing. *)
Definition silent {A} (m : M A) : Prop := forall tr, (m tr).1 = tr.

(** A client and a network for the examples: the network answers every
    request with the same response. *)
Definition sample_client : GitHubClient.t :=
  GitHubClient.new "dummy" "https://api.github.com/graphql"
    {[ "Authorization" := "Bearer dummy";
       "Content-Type" := "application/json";
       "Accept" := "application/vnd.github.v3+json" ]}.

Definition answering (r : http_response) : request -> http_response := fun _ => r.

(** The body [{"data": data}] of a GraphQL answer without errors. *)
Definition data_response (data : pydict) : http_response :=
  HttpBody (JObj {[ "data" := JObj data ]}).

(** The not-found errors of [get_project] and [update_project_item]. *)
Definition project_not_found (project_id : string) : exn :=
  ValueError ("Project with ID " +:+ project_id +:+ " not found").

Definition item_not_found (item_id : string) : exn :=
  ValueError ("Project item with ID " +:+ item_id +:+ " not found").

(** A content payload as it arrives: [null] or an object. *)
Definition opt_obj (o : option pydict) : json :=
  match o with
  | None => JNull
  | Some m => JObj m
  end.

(** The [public] entry of a project node, when the node has one. *)
Definition public_of (node : json) : option json :=
  match node with
  | JObj m => m !! "public"
  | _ => None
  end.

(** The keys of a dict, as [list(d)] gives them. *)
Definition dict_keys (d : pydict) : list string := (map_to_list d).*1.

(** A field-value node that names its field [field] and carries [value]
    under [key] ("text", "number" or "name"). *)
Definition field_value_node (field key : string) (value : json) : json :=
  JObj {[ "field" := JObj {[ "name" := JStr field ]}; key := value ]}.

(** An item node with the given field-value nodes. *)
Definition item_node (id type : string) (field_value_nodes : list json) : json :=
  JObj {[ "id" := JStr id; "type" := JStr type;
          "fieldValues" := JObj {[ "nodes" := JList field_value_nodes ]} ]}.

(** The data of a [list_project_items] answer with the given item nodes. *)
Definition items_data (item_nodes : list json) : pydict :=
  {[ "node" := JObj {[ "items" := JObj {[ "nodes" := JList item_nodes ]} ]} ]}.

(** A field-value node carries [v] as its sole value when one of "text",
    "number" and "name" holds [v] and the two others are absent or null. *)
Definition lacks (fv : pydict) (key : string) : Prop :=
  fv !! key = None \/ fv !! key = Some JNull.

Definition carries (fv : pydict) (v : json) : Prop :=
  v <> JNull /\
  ((fv !! "text" = Some v /\ lacks fv "number" /\ lacks fv "name") \/
   (lacks fv "text" /\ fv !! "number" = Some v /\ lacks fv "name") \/
   (lacks fv "text" /\ lacks fv "number" /\ fv !! "name" = Some v)).

(** The three field-value nodes of the flattening example. *)
Definition example_field_values : list json :=
  [ field_value_node "Status" "name" (JStr "Done");
    field_value_node "Points" "number" (JInt 3);
    field_value_node "" "text" (JStr "x") ].

(** Two project nodes, the first public, the second without [public], and
    the data of an owner-scoped [list_projects] answer. *)
Definition public_project_node : json :=
  JObj {[ "id" := JStr "PVT_1"; "number" := JInt 1; "title" := JStr "Roadmap";
          "public" := JBool true;
          "url" := JStr "https://github.com/users/octocat/projects/1";
          "owner" := JObj {[ "name" := JStr "The Octocat" ]} ]}.

Definition unlisted_project_node : json :=
  JObj {[ "id" := JStr "PVT_2"; "number" := JInt 2; "title" := JStr "Backlog";
          "url" := JStr "https://github.com/users/octocat/projects/2";
          "owner" := JObj {[ "name" := JStr "The Octocat" ]} ]}.

Definition owner_projects_data (nodes : list json) : pydict :=
  {[ "repositoryOwner" := JObj {[ "projectsV2" := JObj {[ "nodes" := JList nodes ]} ]} ]}.

Definition example_projects : list GitHubProject.t :=
  [ GitHubProject.new "PVT_1" 1 "Roadmap" None "open"
      "https://github.com/users/octocat/projects/1" {[ "name" := JStr "The Octocat" ]};
    GitHubProject.new "PVT_2" 2 "Backlog" None "private"
      "https://github.com/users/octocat/projects/2" {[ "name" := JStr "The Octocat" ]} ].

(** A computation of the client [self] that sends nothing or one request,
    which goes to the URL of the client with its headers. *)
Definition sends_at_most_one {A} (self : GitHubClient.t) (m : M A) : Prop :=
  forall tr, requests m tr = tr \/
             exists q vars, requests m tr = tr ++ [request_of self q vars].

(** A result that is no exception of the class [ValueError] itself, the
    class of the errors that the client raises with [raise ValueError(msg)].
    The exceptions of its subclasses are not excluded: see [raises_in]. *)
Definition no_plain_ValueError {A} (r : result A) : Prop :=
  forall msg, r <> Raise (ValueError msg).

(** A result whose exception, if it is one, is among those that [ok]
    accepts. *)
Definition raises_in {A} (ok : exn -> bool) (r : result A) : Prop :=
  forall e, r = Raise e -> ok e = true.

(** The exceptions of the normalisation of a node (subscripts, [.get],
    iteration, validation) and those of [_execute_query]. *)
Definition normalisation_error (e : exn) : bool :=
  match e with
  | KeyError _ | AttributeError | TypeError | ValidationError => true
  | _ => false
  end.


(** The field-value nodes of the [i]-th item of the data of a
    [list_project_items] answer. *)
Definition item_field_value_nodes (data : pydict) (i : nat) (nodes : list json) : Prop :=
  exists (node items : pydict) (item_nodes : list json) (item fieldValues : pydict),
    (data !! "node" = Some (JObj node)) /\
    (node !! "items" = Some (JObj items)) /\
    (items !! "nodes" = Some (JList item_nodes)) /\
    (item_nodes !! i = Some (JObj item)) /\
    (item !! "fieldValues" = Some (JObj fieldValues)) /\
    (fieldValues !! "nodes" = Some (JList nodes)).

Create HintDb nve.

(** The place [data[k1][k2][k3]] of a connection is absent when one of the
    three keys is missing along the way; it is cut by a null when [data[k1]]
    or [data[k1][k2]] is null. *)
Definition path_absent (data : pydict) (k1 k2 k3 : string) : Prop :=
  data !! k1 = None \/
  exists a : pydict, data !! k1 = Some (JObj a) /\
    (a !! k2 = None \/
     exists b : pydict, a !! k2 = Some (JObj b) /\ b !! k3 = None).

Definition path_null (data : pydict) (k1 k2 : string) : Prop :=
  data !! k1 = Some JNull \/
  exists a : pydict, data !! k1 = Some (JObj a) /\ a !! k2 = Some JNull.

(** [data.get(k1, {}).get(k2, {}).get(k3, [])]. *)
Definition connection_nodes (data : json) (k1 k2 k3 : string) : result json :=
  a ← py_get data k1 (JObj ∅);
  b ← py_get a k2 (JObj ∅);
  py_get b k3 (JList []).

Definition creation_failed : exn := GenericException "Failed to create project item".

(** The payload [data[k1][k2]] of a creating mutation holds no item: [k1] is
    missing, or the value under [k2] is falsy (missing, null, empty). *)
Definition no_item_payload (data : pydict) (k1 k2 : string) : Prop :=
  data !! k1 = None \/
  exists p : pydict, data !! k1 = Some (JObj p) /\ truthy (default JNull (p !! k2)) = false.

Definition graphql_endpoint : string := "https://api.github.com/graphql".

(** A field-value node as the query shapes it: an object whose "field" is
    missing or an object whose "name" is missing, null or a string. *)
Definition well_formed_field_value (n : json) : Prop :=
  exists m : pydict, n = JObj m /\
    (m !! "field" = None \/
     exists f : pydict, m !! "field" = Some (JObj f) /\
       (f !! "name" = None \/ f !! "name" = Some JNull \/
        exists s, f !! "name" = Some (JStr s))).

(** The client that the dispatcher builds from the token [tok] of the
    environment, the names of the catalogue and the texts of the answers. *)
Definition env_client (tok : string) : GitHubClient.t :=
  GitHubClient.new tok graphql_endpoint
    {[ "Authorization" := "Bearer " +:+ tok;
       "Content-Type" := "application/json";
       "Accept" := "application/vnd.github.v3+json" ]}.

Definition tool_names : list string := map Tool.name TOOLS.

Definition error_content (e : exn) : list text_content := [TextContent "text" (ErrorOf e)].

Definition result_content (r : tool_result) : list text_content :=
  [TextContent "text" (StrOf r)].

Definition unknown_tool (name : string) : exn := ValueError ("Unknown tool: " +:+ name).

(** * Properties *)

(** ** Python primitives *)

Lemma truthy_opt_Some s : truthy_opt (Some s) = true <-> s <> "".
Proof. destruct s; cbn; split; intros; congruence. Qed.

Lemma truthy_opt_false o : truthy_opt o = false <-> o = None \/ o = Some "".
Proof.
  destruct o as [[|c s]|]; cbn; split; intros Hf; auto; try discriminate.
  destruct Hf; discriminate.
Qed.

Lemma py_or_truthy a b : truthy a = true -> py_or a b = a.
Proof. unfold py_or. now intros ->. Qed.

Lemma py_or_falsy a b : truthy a = false -> py_or a b = b.
Proof. unfold py_or. now intros ->. Qed.

Lemma available_truthy o s : available o s -> truthy_opt o = true.
Proof. intros [-> Hs]. now apply truthy_opt_Some. Qed.

Lemma unavailable_falsy o : unavailable o -> truthy_opt o = false.
Proof. intros Hu. now apply truthy_opt_false. Qed.

(** ** Construction of the client *)

(** C8.  The credential is resolved once, at construction: a token given as
    argument is used whatever the environment holds; without it the value of
    [GITHUB_TOKEN] is used; when neither is available construction raises the
    configuration error and yields no client. *)
Theorem GitHubClient_init_credential (environ : gmap string string) (token : option string) :
  (forall t, available token t ->
     exists c, GitHubClient_init environ token = Ok c /\ GitHubClient.token c = t) /\
  (forall e, unavailable token -> available (environ !! "GITHUB_TOKEN") e ->
     exists c, GitHubClient_init environ token = Ok c /\ GitHubClient.token c = e) /\
  (unavailable token -> unavailable (environ !! "GITHUB_TOKEN") ->
     GitHubClient_init environ token = Raise (ValueError token_required) /\
     forall c, GitHubClient_init environ token <> Ok c).
Proof.
  unfold GitHubClient_init, opt_or, os_getenv.
  split; [|split].
  - intros t Ha. rewrite (available_truthy _ _ Ha).
    destruct Ha as [-> Ht]. apply truthy_opt_Some in Ht.
    change (truthy (JStr t) = true) in Ht. rewrite Ht. cbn. eauto.
  - intros e Hu Ha. rewrite (unavailable_falsy _ Hu).
    destruct Ha as [-> He]. apply truthy_opt_Some in He.
    change (truthy (JStr e) = true) in He. rewrite He. cbn. eauto.
  - intros Hu He. rewrite (unavailable_falsy _ Hu).
    assert (Hr : match environ !! "GITHUB_TOKEN" with
                 | None => Raise (ValueError token_required)
                 | Some tok =>
                     if negb (truthy (JStr tok)) then Raise (ValueError token_required)
                     else Ok (GitHubClient.new tok "https://api.github.com/graphql"
                                {[ "Authorization" := "Bearer " +:+ tok;
                                   "Content-Type" := "application/json";
                                   "Accept" := "application/vnd.github.v3+json" ]})
                 end = Raise (ValueError token_required) :> result GitHubClient.t).
    { destruct He as [-> | ->]; reflexivity. }
    split; [exact Hr|]. intros c Hc. unfold token_required in Hr.
    rewrite Hr in Hc. discriminate.
Qed.

Lemma GitHubClient_init_credential_witness :
  (exists c, GitHubClient_init {[ "GITHUB_TOKEN" := "from-env" ]} (Some "given") = Ok c /\
             GitHubClient.token c = "given") /\
  (exists c, GitHubClient_init {[ "GITHUB_TOKEN" := "from-env" ]} None = Ok c /\
             GitHubClient.token c = "from-env") /\
  GitHubClient_init ∅ None = Raise (ValueError token_required).
Proof.
  pose proof (GitHubClient_init_credential {[ "GITHUB_TOKEN" := "from-env" ]} (Some "given"))
    as (Hgiven & _ & _).
  pose proof (GitHubClient_init_credential {[ "GITHUB_TOKEN" := "from-env" ]} None)
    as (_ & Henv & _).
  pose proof (GitHubClient_init_credential ∅ None) as (_ & _ & Hnone).
  split; [|split].
  - apply Hgiven. split; [reflexivity | discriminate].
  - apply Henv; [left; reflexivity | split; [reflexivity | discriminate]].
  - apply Hnone; left; reflexivity.
Defined.

(** ** Requests sent by a method *)

Lemma silent_lift {A} (r : result A) : silent (lift r).
Proof. intros tr. reflexivity. Qed.

Lemma silent_raise {A} (e : exn) : silent (raise e : M A).
Proof. intros tr. reflexivity. Qed.

Lemma silent_bind {A B} (m : M A) (f : A -> M B) :
  silent m -> (forall a, silent (f a)) -> silent (m ≫= f).
Proof.
  intros Hm Hf tr. unfold mbind, M_bind. specialize (Hm tr).
  destruct (m tr) as [tr' [e | a]]; cbn in *; subst; [reflexivity | apply Hf].
Qed.

Lemma silent_if {A} (b : bool) (m1 m2 : M A) :
  silent m1 -> silent m2 -> silent (if b then m1 else m2).
Proof. now destruct b. Qed.

#[local] Hint Resolve silent_lift silent_raise silent_bind silent_if : silent.

Lemma requests_execute_query post self q vars {B} (f : json -> M B) tr :
  (forall data, silent (f data)) ->
  requests (execute_query post self q vars ≫= f) tr = tr ++ [request_of self q vars].
Proof.
  intros Hf. unfold requests, mbind, M_bind, execute_query.
  destruct (response_data _) as [e | data]; [reflexivity | apply Hf].
Qed.

Lemma outcome_execute_query post self q vars tr :
  outcome (execute_query post self q vars) tr = response_data (post (request_of self q vars)).
Proof. reflexivity. Qed.

(** The outcome of a method that sends one request and then computes without
    the network. *)
Lemma outcome_execute_then post self q vars {B} (f : json -> M B) tr :
  outcome (execute_query post self q vars ≫= f) tr =
  match outcome (execute_query post self q vars) tr with
  | inl e => inl e
  | inr data => outcome (f data) (tr ++ [request_of self q vars])
  end.
Proof.
  unfold outcome, mbind, M_bind, execute_query.
  destruct (response_data _) as [e | data]; reflexivity.
Qed.

Lemma outcome_lift {A} (r : result A) tr : outcome (lift r) tr = r.
Proof. reflexivity. Qed.

Lemma outcome_raise {A} (e : exn) tr : outcome (raise e : M A) tr = Raise e.
Proof. reflexivity. Qed.

Lemma outcome_lift_then {A B} (r : result A) (f : A -> M B) tr :
  outcome (lift r ≫= f) tr =
  match r with
  | inl e => inl e
  | inr a => outcome (f a) tr
  end.
Proof. destruct r; reflexivity. Qed.

Lemma outcome_data_response post self q vars tr (data : pydict) :
  post (request_of self q vars) = data_response data ->
  outcome (execute_query post self q vars) tr = Ok (JObj data).
Proof. rewrite outcome_execute_query. intros ->. reflexivity. Qed.

(** ** list_projects: the query variant *)

(** C2.  With owner and repo both available [list_projects] sends the
    repository-scoped document; with owner alone the owner-scoped document
    over User and Organization; without owner (whether repo is given or not)
    it raises the argument-validation error and sends nothing. *)
Theorem list_projects_query_variant `{Pydantic} (post : request -> http_response)
    (self : GitHubClient.t) (owner repo : option string) (tr : list request) :
  (forall o r, available owner o -> available repo r ->
     requests (list_projects post self owner repo) tr =
     tr ++ [request_of self ListProjectsByRepository
              {[ "owner" := JStr o; "repo" := JStr r ]}]) /\
  (forall o, available owner o -> unavailable repo ->
     requests (list_projects post self owner repo) tr =
     tr ++ [request_of self ListProjectsByOwner {[ "owner" := JStr o ]}]) /\
  (unavailable owner ->
     list_projects post self owner repo tr = (tr, Raise (ValueError either_required))).
Proof.
  unfold list_projects, list_projects_data.
  split; [|split].
  - intros o r Ho Hr.
    rewrite (available_truthy _ _ Ho), (available_truthy _ _ Hr).
    destruct Ho as [-> _], Hr as [-> _]. cbn [andb opt_json].
    unfold requests. rewrite <- (requests_execute_query post self _ _
      (fun data => lift (repository ← py_get data "repository" (JObj ∅);
                         projectsV2 ← py_get repository "projectsV2" (JObj ∅);
                         py_get projectsV2 "nodes" (JList [])) ≫=
                   (fun projects_data => lift (projects ← py_iter projects_data;
                                               comprehension (project_of_node) projects))) tr)
      by auto with silent.
    unfold requests, mbind, M_bind, execute_query.
    destruct (response_data _) as [e | data]; reflexivity.
  - intros o Ho Hr.
    rewrite (available_truthy _ _ Ho), (unavailable_falsy _ Hr).
    destruct Ho as [-> _]. cbn [andb opt_json].
    unfold requests. rewrite <- (requests_execute_query post self _ _
      (fun data => lift (repositoryOwner ← py_get data "repositoryOwner" (JObj ∅);
                         projectsV2 ← py_get repositoryOwner "projectsV2" (JObj ∅);
                         py_get projectsV2 "nodes" (JList [])) ≫=
                   (fun projects_data => lift (projects ← py_iter projects_data;
                                               comprehension (project_of_node) projects))) tr)
      by auto with silent.
    unfold requests, mbind, M_bind, execute_query.
    destruct (response_data _) as [e | data]; reflexivity.
  - intros Ho. rewrite (unavailable_falsy _ Ho), andb_false_r. reflexivity.
Qed.

Lemma list_projects_query_variant_witness :
  requests (list_projects (H := strict_pydantic) (answering HttpFailure) sample_client
              (Some "octocat") (Some "hello-world")) [] =
    [request_of sample_client ListProjectsByRepository
       {[ "owner" := JStr "octocat"; "repo" := JStr "hello-world" ]}] /\
  requests (list_projects (H := strict_pydantic) (answering HttpFailure) sample_client
              (Some "octocat") None) [] =
    [request_of sample_client ListProjectsByOwner {[ "owner" := JStr "octocat" ]}] /\
  list_projects (H := strict_pydantic) (answering HttpFailure) sample_client
    None (Some "hello-world") [] = ([], Raise (ValueError either_required)).
Proof.
  pose proof (list_projects_query_variant (H := strict_pydantic) (answering HttpFailure)
                sample_client (Some "octocat") (Some "hello-world") []) as (Hrepo & _ & _).
  pose proof (list_projects_query_variant (H := strict_pydantic) (answering HttpFailure)
                sample_client (Some "octocat") None []) as (_ & Howner & _).
  pose proof (list_projects_query_variant (H := strict_pydantic) (answering HttpFailure)
                sample_client None (Some "hello-world") []) as (_ & _ & Hnone).
  split; [|split].
  - apply Hrepo; (split; [reflexivity | discriminate]).
  - apply Howner; [split; [reflexivity | discriminate] | left; reflexivity].
  - apply Hnone. left; reflexivity.
Defined.

(** ** create_project_item: default title and required content *)

(** C4.  For a draft issue without title the mutation that is sent creates a
    draft issue titled "New Draft Issue"; for any other content type without
    content_id the call raises the argument-validation error and the list of
    requests is left as it was. *)
Theorem create_project_item_defaults `{Pydantic} (post : request -> http_response)
    (self : GitHubClient.t) (project_id : string) (tr : list request) :
  (forall content_id body,
     requests (create_project_item post self project_id "DRAFT_ISSUE" content_id None body) tr =
     tr ++ [request_of self AddProjectV2DraftIssue
              {[ "projectId" := JStr project_id;
                 "title" := JStr "New Draft Issue";
                 "body" := opt_json body ]}]) /\
  (forall content_type title body, content_type <> "DRAFT_ISSUE" ->
     create_project_item post self project_id content_type None title body tr =
     (tr, Raise (ValueError content_id_required))).
Proof.
  split.
  - intros content_id body. unfold create_project_item.
    change ("DRAFT_ISSUE" =? "DRAFT_ISSUE")%string with true. cbv iota.
    apply requests_execute_query. auto with silent.
  - intros content_type title body Hne. unfold create_project_item.
    apply String.eqb_neq in Hne. rewrite Hne. reflexivity.
Qed.

Lemma create_project_item_defaults_witness :
  create_project_item (H := strict_pydantic) (answering HttpFailure) sample_client
    "PVT_1" "ISSUE" None None None [] = ([], Raise (ValueError content_id_required)).
Proof.
  apply (create_project_item_defaults (H := strict_pydantic) (answering HttpFailure)
           sample_client "PVT_1" []).
  discriminate.
Defined.

(** ** Exceptions and values through the binds *)

Lemma bind_Ok {A B} (m : result A) (f : A -> result B) (b : B) :
  m ≫= f = inr b -> exists a, m = inr a /\ f a = inr b.
Proof. destruct m as [e | a]; cbn; [discriminate | eauto]. Qed.

Lemma bind_Raise {A B} (m : result A) (f : A -> result B) (e : exn) :
  m ≫= f = inl e -> m = inl e \/ exists a, m = inr a /\ f a = inl e.
Proof. destruct m as [e' | a]; cbn; [intros [= ->]; auto | eauto]. Qed.

Lemma bind_Ok_eq {A B} (a : A) (f : A -> result B) : Ok a ≫= f = f a.
Proof. reflexivity. Qed.

Lemma truthy_obj_lookup (m : pydict) k v : m !! k = Some v -> truthy (JObj m) = true.
Proof.
  intros Hk. cbn. destruct (map_to_list m) as [|kv l] eqn:Hl; [|reflexivity].
  apply map_to_list_empty_iff in Hl. subst m. rewrite lookup_empty in Hk. discriminate.
Qed.

Lemma validate_optional_obj `{Pydantic} (o : option pydict) :
  validate_optional validate_dict (opt_obj o) = Ok o.
Proof. destruct o as [m|]; cbn; [rewrite validate_dict_obj|]; reflexivity. Qed.

Lemma response_data_not_ValueError response msg :
  response_data response <> Raise (ValueError msg).
Proof.
  destruct response as [|data|]; cbn; [discriminate| |discriminate].
  destruct data as [| b | z | s | l | m]; cbn; try discriminate.
  - destruct (String.index 0 "errors" s); cbn; discriminate.
  - destruct (existsb (is_str "errors") l); cbn; discriminate.
  - destruct (m !! "errors") as [errors|]; cbn; discriminate.
Qed.

Lemma py_get_not_ValueError d key default msg :
  py_get d key default <> Raise (ValueError msg).
Proof. destruct d; cbn; discriminate. Qed.

(** ** update_project_item: a read that echoes the updates *)

(** C5.  [update_project_item] sends exactly one request, the query that reads
    the item, which is no mutation; whenever it returns an item, the item's
    field_values are the field_updates of the caller; it does return one when
    the node read has a string id and type; and when the node is absent or
    null it raises the not-found error. *)
Theorem update_project_item_echo `{Pydantic} (post : request -> http_response)
    (self : GitHubClient.t) (project_id item_id : string) (field_updates : pydict)
    (tr : list request) :
  let read := request_of self GetProjectItem {[ "itemId" := JStr item_id ]} in
  let call := update_project_item post self project_id item_id field_updates in
  requests call tr = tr ++ [read] /\
  is_mutation (query read) = false /\
  (forall item, outcome call tr = Ok item ->
     GitHubProjectItem.field_values item = field_updates) /\
  (forall (data node : pydict) id type content,
     response_data (post read) = Ok (JObj data) ->
     data !! "node" = Some (JObj node) ->
     node !! "id" = Some (JStr id) -> node !! "type" = Some (JStr type) ->
     py_get (JObj node) "content" JNull = Ok (opt_obj content) ->
     outcome call tr =
     Ok (GitHubProjectItem.new id type content field_updates {[ "id" := JStr project_id ]})) /\
  (forall data : pydict,
     response_data (post read) = Ok (JObj data) ->
     data !! "node" = None \/ data !! "node" = Some JNull ->
     outcome call tr = Raise (item_not_found item_id)).
Proof.
  intros read call. subst call.
  split; [|split; [reflexivity|]].
  { unfold update_project_item. apply requests_execute_query.
    intros data. apply silent_bind; [apply silent_lift|].
    intros item_data. apply silent_if; [apply silent_raise | apply silent_lift]. }
  unfold update_project_item. rewrite outcome_execute_then, outcome_execute_query.
  fold read.
  split; [|split].
  - intros item. destruct (response_data (post read)) as [e | data]; [discriminate|].
    rewrite outcome_lift_then.
    destruct (py_get data "node" JNull) as [e | item_data]; [discriminate|].
    destruct (truthy item_data); cbn [negb]; [|discriminate].
    rewrite outcome_lift. intros Hitem. unfold GitHubProjectItem_init in Hitem.
    do 6 (apply bind_Ok in Hitem; destruct Hitem as (? & _ & Hitem)).
    apply bind_Ok in Hitem. destruct Hitem as (fv & Hfv & Hitem).
    apply bind_Ok in Hitem. destruct Hitem as (pr & _ & Hitem).
    injection Hitem as <-. cbn. cbn in Hfv. rewrite validate_dict_obj in Hfv.
    now injection Hfv.
  - intros data node id type content -> Hnode Hid Htype Hcontent.
    unfold Ok at 1. cbv beta iota.
    rewrite outcome_lift_then. cbn [py_get Ok]. rewrite Hnode.
    rewrite (truthy_obj_lookup _ _ _ Hid). cbn [negb]. rewrite outcome_lift.
    cbn [py_getitem]. rewrite Hid, Htype. cbn [mbind result_bind Ok].
    rewrite Hcontent. cbn [mbind result_bind Ok].
    unfold GitHubProjectItem_init.
    rewrite !validate_str_str, validate_optional_obj, !validate_dict_obj. reflexivity.
  - intros data -> [Hnode | Hnode]; unfold Ok at 1; cbv beta iota;
      rewrite outcome_lift_then; cbn [py_get Ok]; rewrite Hnode; reflexivity.
Qed.

Lemma update_project_item_echo_witness :
  outcome (update_project_item (H := strict_pydantic)
             (answering (data_response
                {[ "node" := JObj {[ "id" := JStr "PVTI_1"; "type" := JStr "ISSUE" ]} ]}))
             sample_client "PVT_1" "PVTI_1" {[ "Status" := JStr "Done" ]}) [] =
    Ok (GitHubProjectItem.new "PVTI_1" "ISSUE" None {[ "Status" := JStr "Done" ]}
          {[ "id" := JStr "PVT_1" ]}) /\
  outcome (update_project_item (H := strict_pydantic)
             (answering (data_response {[ "node" := JNull ]}))
             sample_client "PVT_1" "PVTI_1" {[ "Status" := JStr "Done" ]}) [] =
    Raise (item_not_found "PVTI_1").
Proof.
  split.
  - pose proof (update_project_item_echo (H := strict_pydantic)
      (answering (data_response
         {[ "node" := JObj {[ "id" := JStr "PVTI_1"; "type" := JStr "ISSUE" ]} ]}))
      sample_client "PVT_1" "PVTI_1" {[ "Status" := JStr "Done" ]} [])
      as (_ & _ & _ & Hfound & _).
    apply (Hfound {[ "node" := JObj {[ "id" := JStr "PVTI_1"; "type" := JStr "ISSUE" ]} ]}
             {[ "id" := JStr "PVTI_1"; "type" := JStr "ISSUE" ]} "PVTI_1" "ISSUE" None);
      reflexivity.
  - pose proof (update_project_item_echo (H := strict_pydantic)
      (answering (data_response {[ "node" := JNull ]}))
      sample_client "PVT_1" "PVTI_1" {[ "Status" := JStr "Done" ]} [])
      as (_ & _ & _ & _ & Hmissing).
    apply (Hmissing {[ "node" := JNull ]}); [reflexivity | right; reflexivity].
Defined.

(** ** delete_project_item: the reported identifier *)

(** C7.  The claim is right and the code misses a case.  The chained
    [data.get("deleteProjectV2Item", {})] does what the claim says when the
    payload is absent: the call returns false.  When the payload is null,
    which holds no deleted-item identifier either, the default is not used
    and the call does not return false: it raises [AttributeError]. *)
Theorem delete_project_item_null_payload :
  outcome (delete_project_item (answering (data_response ∅))
             sample_client "PVT_1" "PVTI_1") [] = Ok false /\
  outcome (delete_project_item
             (answering (data_response {[ "deleteProjectV2Item" := JNull ]}))
             sample_client "PVT_1" "PVTI_1") [] = Raise AttributeError /\
  outcome (delete_project_item
             (answering (data_response {[ "deleteProjectV2Item" := JNull ]}))
             sample_client "PVT_1" "PVTI_1") [] <> Ok false.
Proof. split; [reflexivity | split; [reflexivity | discriminate]]. Qed.

(** Where [delete_project_item] does return.  When the request succeeds and
    the payload [deleteProjectV2Item] is an object, the call returns true
    exactly when the payload holds a deleted-item identifier that is not
    empty; when the payload is absent it returns false; and no call raises an
    error of the client's own, such as a not-found error. *)
Theorem delete_project_item_reports (post : request -> http_response)
    (self : GitHubClient.t) (project_id item_id : string) (tr : list request) :
  let mutation := request_of self DeleteProjectV2Item
                    {[ "projectId" := JStr project_id; "itemId" := JStr item_id ]} in
  let call := delete_project_item post self project_id item_id in
  (forall data payload : pydict,
     response_data (post mutation) = Ok (JObj data) ->
     data !! "deleteProjectV2Item" = Some (JObj payload) ->
     exists b, outcome call tr = Ok b /\
       (b = true <-> exists v, payload !! "deletedItemId" = Some v /\ truthy v = true)) /\
  (forall data : pydict,
     response_data (post mutation) = Ok (JObj data) ->
     data !! "deleteProjectV2Item" = None ->
     outcome call tr = Ok false) /\
  (forall msg, outcome call tr <> Raise (ValueError msg)).
Proof.
  intros mutation call. subst call. unfold delete_project_item.
  rewrite outcome_execute_then, outcome_execute_query. fold mutation.
  split; [|split].
  - intros data payload -> Hpayload. unfold Ok at 1. cbv beta iota.
    rewrite outcome_lift. cbn [py_get Ok]. rewrite Hpayload.
    cbn [mbind result_bind py_get Ok].
    destruct (payload !! "deletedItemId") as [v|] eqn:Hid.
    + exists (truthy v). split; [reflexivity|]. split.
      * intros Hv. exists v. auto.
      * intros (v' & [= <-] & Hv). exact Hv.
    + exists false. split; [reflexivity|]. split; [discriminate|].
      intros (v & Hv & _). discriminate.
  - intros data -> Hpayload. unfold Ok at 1. cbv beta iota.
    rewrite outcome_lift. cbn [py_get Ok]. rewrite Hpayload. reflexivity.
  - intros msg. pose proof (response_data_not_ValueError (post mutation) msg) as Hdata.
    destruct (response_data (post mutation)) as [e | data].
    { intros [= ->]. now apply Hdata. }
    rewrite outcome_lift. intros Hraise.
    apply bind_Raise in Hraise. destruct Hraise as [Hraise | (payload & _ & Hraise)].
    { now apply py_get_not_ValueError in Hraise. }
    apply bind_Raise in Hraise. destruct Hraise as [Hraise | (v & _ & Hraise)].
    { now apply py_get_not_ValueError in Hraise. }
    discriminate.
Qed.

Lemma delete_project_item_reports_witness :
  (exists b, outcome (delete_project_item
               (answering (data_response
                  {[ "deleteProjectV2Item" := JObj {[ "deletedItemId" := JStr "PVTI_1" ]} ]}))
               sample_client "PVT_1" "PVTI_1") [] = Ok b /\
     (b = true <->
      exists v, ({[ "deletedItemId" := JStr "PVTI_1" ]} : pydict) !! "deletedItemId" = Some v /\
                truthy v = true)) /\
  outcome (delete_project_item (answering (data_response ∅))
             sample_client "PVT_1" "PVTI_1") [] = Ok false.
Proof.
  split.
  - pose proof (delete_project_item_reports
      (answering (data_response
         {[ "deleteProjectV2Item" := JObj {[ "deletedItemId" := JStr "PVTI_1" ]} ]}))
      sample_client "PVT_1" "PVTI_1" []) as (Hobject & _ & _).
    apply (Hobject
      {[ "deleteProjectV2Item" := JObj {[ "deletedItemId" := JStr "PVTI_1" ]} ]});
      reflexivity.
  - pose proof (delete_project_item_reports (answering (data_response ∅))
      sample_client "PVT_1" "PVTI_1" []) as (_ & Habsent & _).
    apply (Habsent ∅); reflexivity.
Defined.

(** ** A node that does not resolve *)

(** C9.  When the request succeeds and the data hold [node: null],
    [list_project_items] returns no list: it raises [AttributeError], which is
    not a [ValueError]; on such data [get_project] and [update_project_item]
    raise their not-found error. *)
Theorem list_project_items_null_node `{Pydantic} (post : request -> http_response)
    (self : GitHubClient.t) (id : string) (tr : list request) (data : pydict) :
  data !! "node" = Some JNull ->
  (response_data (post (request_of self ListProjectItems {[ "projectId" := JStr id ]})) =
     Ok (JObj data) ->
   outcome (list_project_items post self id) tr = Raise AttributeError /\
   (forall items, outcome (list_project_items post self id) tr <> Ok items) /\
   (forall msg, outcome (list_project_items post self id) tr <> Raise (ValueError msg))) /\
  (response_data (post (request_of self GetProject {[ "projectId" := JStr id ]})) =
     Ok (JObj data) ->
   outcome (get_project post self id) tr = Raise (project_not_found id)) /\
  (forall project_id field_updates,
   response_data (post (request_of self GetProjectItem {[ "itemId" := JStr id ]})) =
     Ok (JObj data) ->
   outcome (update_project_item post self project_id id field_updates) tr =
     Raise (item_not_found id)).
Proof.
  intros Hnode. split; [|split].
  - intros Hdata.
    assert (Hraise : outcome (list_project_items post self id) tr = Raise AttributeError).
    { unfold list_project_items.
      rewrite outcome_execute_then, outcome_execute_query, Hdata.
      unfold Ok at 1. cbv beta iota. rewrite outcome_lift.
      cbn [py_get Ok]. rewrite Hnode. reflexivity. }
    rewrite Hraise. repeat split; intros; discriminate.
  - intros Hdata. unfold get_project.
    rewrite outcome_execute_then, outcome_execute_query, Hdata.
    unfold Ok at 1. cbv beta iota. rewrite outcome_lift_then.
    cbn [py_get Ok]. rewrite Hnode. reflexivity.
  - intros project_id field_updates Hdata. unfold update_project_item.
    rewrite outcome_execute_then, outcome_execute_query, Hdata.
    unfold Ok at 1. cbv beta iota. rewrite outcome_lift_then.
    cbn [py_get Ok]. rewrite Hnode. reflexivity.
Qed.

Lemma list_project_items_null_node_witness :
  outcome (list_project_items (H := strict_pydantic)
             (answering (data_response {[ "node" := JNull ]})) sample_client "PVT_1") [] =
    Raise AttributeError /\
  outcome (get_project (H := strict_pydantic)
             (answering (data_response {[ "node" := JNull ]})) sample_client "PVT_1") [] =
    Raise (project_not_found "PVT_1").
Proof.
  pose proof (list_project_items_null_node (H := strict_pydantic)
    (answering (data_response {[ "node" := JNull ]})) sample_client "PVT_1" []
    {[ "node" := JNull ]} eq_refl) as (Hitems & Hproject & _).
  split.
  - apply Hitems. reflexivity.
  - apply Hproject. reflexivity.
Defined.

(** ** list_projects: the state of a project *)

Lemma comprehension_Forall2 {A B} (f : A -> result B) (l : list A) (ys : list B) :
  comprehension f l = Ok ys -> Forall2 (fun x y => f x = Ok y) l ys.
Proof.
  revert ys. induction l as [|x l IH]; intros ys Hys; cbn in Hys.
  - injection Hys as <-. constructor.
  - apply bind_Ok in Hys. destruct Hys as (y & Hy & Hys).
    apply bind_Ok in Hys. destruct Hys as (ys' & Hys' & Hys).
    injection Hys as <-. constructor; [exact Hy | now apply IH].
Qed.

Lemma project_of_node_state `{Pydantic} (node : json) (p : GitHubProject.t) :
  project_of_node node = Ok p ->
  exists public, py_get node "public" JNull = Ok public /\
    GitHubProject.state p = if truthy public then "open" else "private".
Proof.
  unfold project_of_node. intros Hp.
  do 4 (apply bind_Ok in Hp; destruct Hp as (? & _ & Hp)).
  apply bind_Ok in Hp. destruct Hp as (public & Hpublic & Hp).
  exists public. split; [exact Hpublic|].
  do 2 (apply bind_Ok in Hp; destruct Hp as (? & _ & Hp)).
  unfold GitHubProject_init in Hp.
  do 4 (apply bind_Ok in Hp; destruct Hp as (? & _ & Hp)).
  apply bind_Ok in Hp. destruct Hp as (state & Hstate & Hp).
  do 2 (apply bind_Ok in Hp; destruct Hp as (? & _ & Hp)).
  injection Hp as <-. cbn. rewrite validate_str_str in Hstate.
  now injection Hstate as <-.
Qed.

(** C6.  Every project that [list_projects] returns comes from one node of
    the response, in order; its state is "open" when the node's [public] is
    true, "private" when it is false or absent, and never anything but "open"
    or "private". *)
Theorem list_projects_state `{Pydantic} (post : request -> http_response)
    (self : GitHubClient.t) (owner repo : option string) (tr : list request)
    (projects : list GitHubProject.t) :
  outcome (list_projects post self owner repo) tr = Ok projects ->
  exists projects_data nodes,
    outcome (list_projects_data post self owner repo) tr = Ok projects_data /\
    py_iter projects_data = Ok nodes /\
    Forall2 (fun node p =>
               (public_of node = Some (JBool true) -> GitHubProject.state p = "open") /\
               (public_of node = Some (JBool false) \/ public_of node = None ->
                GitHubProject.state p = "private") /\
               (GitHubProject.state p = "open" \/ GitHubProject.state p = "private"))
            nodes projects.
Proof.
  unfold list_projects, outcome, mbind at 1, M_bind. intros Hps.
  destruct (list_projects_data post self owner repo tr) as [tr' [e | projects_data]];
    [discriminate|].
  cbn in Hps. apply bind_Ok in Hps. destruct Hps as (nodes & Hnodes & Hps).
  exists projects_data, nodes. split; [reflexivity | split; [exact Hnodes|]].
  apply comprehension_Forall2 in Hps.
  eapply Forall2_impl; [exact Hps|]. cbn. intros node p Hp.
  apply project_of_node_state in Hp. destruct Hp as (public & Hpublic & ->).
  destruct node as [| | | | | m]; try discriminate. cbn in Hpublic |- *.
  injection Hpublic as <-.
  split; [|split].
  - intros ->. reflexivity.
  - intros [-> | ->]; reflexivity.
  - destruct (truthy _); auto.
Qed.

(** ** list_project_items: flattening the field values *)

Lemma field_name_truthy (n name default : json) :
  field_name n JNull = Ok name -> truthy name = true -> field_name n default = Ok name.
Proof.
  unfold field_name. destruct n as [| | | | | m]; try discriminate. cbn.
  destruct (m !! "field") as [field|]; cbn.
  - destruct field as [| | | | | f]; try discriminate. cbn.
    destruct (f !! "name") as [v|]; [tauto|].
    intros [= <-]. discriminate.
  - rewrite lookup_empty. intros [= <-]. discriminate.
Qed.

Lemma field_name_extracted (n name : json) :
  field_name n JNull = Ok name -> exists v, extracted_value n = Ok v.
Proof.
  unfold field_name, extracted_value.
  destruct n as [| | | | | m]; try discriminate. cbn. eauto.
Qed.

Lemma field_values_of_app (l1 l2 : list json) (acc : pydict * bool) :
  field_values_of (l1 ++ l2) acc = field_values_of l1 acc ≫= field_values_of l2.
Proof.
  revert acc. induction l1 as [|n l1 IH]; intros acc; [reflexivity|].
  cbn [app field_values_of].
  destruct (field_name n JNull) as [e | cond]; [reflexivity|].
  cbn [mbind result_bind]. destruct (truthy cond); [|apply IH].
  destruct (field_name n (JStr "")) as [e | key]; [reflexivity|].
  cbn [mbind result_bind].
  destruct (extracted_value n) as [e | value]; [reflexivity|].
  cbn [mbind result_bind].
  destruct (dict_store key value acc) as [e | acc']; [reflexivity|].
  cbn [mbind result_bind]. apply IH.
Qed.

Lemma field_values_of_dropped (n : json) (rest : list json) (acc : pydict * bool) name :
  field_name n JNull = Ok name -> truthy name = false ->
  field_values_of (n :: rest) acc = field_values_of rest acc.
Proof. intros Hname Hfalsy. cbn. rewrite Hname. cbn. now rewrite Hfalsy. Qed.

Lemma field_values_of_named (n : json) (rest : list json) (acc : pydict * bool) k v :
  field_name n JNull = Ok (JStr k) -> k <> "" -> extracted_value n = Ok v ->
  field_values_of (n :: rest) acc = field_values_of rest (<[k := v]> acc.1, acc.2).
Proof.
  intros Hname Hk Hv. cbn [field_values_of]. rewrite Hname. cbn [mbind result_bind Ok].
  assert (Ht : truthy (JStr k) = true) by (destruct k; [congruence | reflexivity]).
  rewrite Ht, (field_name_truthy _ _ _ Hname Ht), Hv. reflexivity.
Qed.

(** The nodes that do not resolve the name [k] leave its entry as it is. *)
Lemma field_values_of_other (l : list json) (acc : pydict * bool) d bad k :
  field_values_of l acc = Ok (d, bad) ->
  Forall (fun m => field_name m JNull <> Ok (JStr k)) l ->
  d !! k = acc.1 !! k.
Proof.
  revert acc. induction l as [|n l IH]; intros acc Hd Hl.
  - injection Hd as ->. reflexivity.
  - inversion Hl as [|? ? Hn Hl']; subst. cbn [field_values_of] in Hd.
    destruct (field_name n JNull) as [e | cond] eqn:Hcond; [discriminate|].
    cbn [mbind result_bind] in Hd.
    destruct (truthy cond) eqn:Ht; [|now apply IH].
    rewrite (field_name_truthy _ _ _ Hcond Ht) in Hd. cbn [mbind result_bind Ok] in Hd.
    apply bind_Ok in Hd. destruct Hd as (value & _ & Hd).
    apply bind_Ok in Hd. destruct Hd as (acc' & Hstore & Hd).
    rewrite (IH _ Hd Hl').
    destruct cond as [| b | z | s | l0 | m]; try discriminate;
      cbn in Hstore; injection Hstore as <-; cbn; try reflexivity.
    apply lookup_insert_ne. intros ->. now apply Hn.
Qed.

(** Every entry of the mapping comes from a node that resolves its key as a
    name that is not empty. *)
Lemma field_values_of_keys (l : list json) (acc : pydict * bool) d bad k :
  field_values_of l acc = Ok (d, bad) -> is_Some (d !! k) ->
  is_Some (acc.1 !! k) \/ (k <> "" /\ Exists (fun n => field_name n JNull = Ok (JStr k)) l).
Proof.
  revert acc. induction l as [|n l IH]; intros acc Hd Hk.
  - injection Hd as ->. now left.
  - cbn [field_values_of] in Hd.
    destruct (field_name n JNull) as [e | cond] eqn:Hcond; [discriminate|].
    cbn [mbind result_bind] in Hd.
    destruct (truthy cond) eqn:Ht.
    2:{ destruct (IH _ Hd Hk) as [? | [? ?]]; [now left | right; split; auto]. }
    rewrite (field_name_truthy _ _ _ Hcond Ht) in Hd. cbn [mbind result_bind Ok] in Hd.
    apply bind_Ok in Hd. destruct Hd as (value & _ & Hd).
    apply bind_Ok in Hd. destruct Hd as (acc' & Hstore & Hd).
    destruct (IH _ Hd Hk) as [Hacc | [? ?]]; [|right; split; auto].
    destruct cond as [| b | z | s | l0 | m]; try discriminate;
      cbn in Hstore; injection Hstore as <-; cbn in Hacc; try (now left).
    destruct (decide (s = k)) as [-> | Hne].
    + right. split; [destruct k; [discriminate | congruence]|]. now left.
    + left. now rewrite lookup_insert_ne in Hacc.
Qed.

Lemma item_of_node_Ok `{Pydantic} (project_id : string) (item : pydict)
    id type content (nodes : list json) (d : pydict) :
  item !! "id" = Some (JStr id) -> item !! "type" = Some (JStr type) ->
  py_get (JObj item) "content" JNull = Ok (opt_obj content) ->
  item !! "fieldValues" = Some (JObj {[ "nodes" := JList nodes ]}) ->
  field_values_of nodes (∅, false) = Ok (d, false) ->
  item_of_node project_id (JObj item) =
  Ok (GitHubProjectItem.new id type content d {[ "id" := JStr project_id ]}).
Proof.
  intros Hid Htype Hcontent Hfv Hd. unfold item_of_node.
  cbn [py_getitem]. rewrite Hid, Htype. cbn [mbind result_bind Ok].
  rewrite Hcontent. cbn [mbind result_bind Ok py_get]. rewrite Hfv.
  cbn [mbind result_bind Ok py_get].
  rewrite lookup_singleton_eq. cbn [mbind result_bind Ok py_iter]. rewrite Hd.
  cbn [mbind result_bind Ok fst snd]. unfold GitHubProjectItem_init.
  rewrite !validate_str_str, validate_optional_obj, !validate_dict_obj. reflexivity.
Qed.



Lemma dict_keys_once (d : pydict) (k : string) :
  is_Some (d !! k) -> count_occ String.string_dec (dict_keys d) k = 1%nat.
Proof.
  intros [v Hv].
  apply NoDup_count_occ'; [apply NoDup_ListNoDup, NoDup_fst_map_to_list|].
  apply list_elem_of_In.
  apply (list_elem_of_fmap_2' fst _ (k, v)); [|reflexivity].
  now apply elem_of_map_to_list.
Qed.

(** In the comprehension, the last node that resolves a name binds it. *)
Lemma field_values_of_last_wins (before after : list json) (n : json)
    (d : pydict) (bad : bool) (k : string) :
  field_values_of (before ++ n :: after) (∅, false) = Ok (d, bad) ->
  field_name n JNull = Ok (JStr k) -> k <> "" ->
  Forall (fun m => field_name m JNull <> Ok (JStr k)) after ->
  exists v, extracted_value n = Ok v /\
            d !! k = Some v /\
            count_occ String.string_dec (dict_keys d) k = 1%nat.
Proof.
  intros Hd Hname Hk Hafter.
  destruct (field_name_extracted _ _ Hname) as [v Hv]. exists v.
  rewrite field_values_of_app in Hd.
  apply bind_Ok in Hd. destruct Hd as (acc & _ & Hd).
  rewrite (field_values_of_named _ _ _ _ _ Hname Hk Hv) in Hd.
  apply field_values_of_other with (k := k) in Hd; [|exact Hafter].
  cbn in Hd. rewrite lookup_insert_eq in Hd.
  split; [exact Hv|]. split; [exact Hd|].
  apply dict_keys_once. rewrite Hd. eauto.
Qed.

(** The field values of an item are the comprehension over the field-value
    nodes of its node. *)
Lemma item_of_node_field_values `{Pydantic} (project_id : string)
    (m fieldValues : pydict) (nodes : list json) (item : GitHubProjectItem.t) :
  item_of_node project_id (JObj m) = Ok item ->
  m !! "fieldValues" = Some (JObj fieldValues) ->
  fieldValues !! "nodes" = Some (JList nodes) ->
  field_values_of nodes (∅, false) = Ok (GitHubProjectItem.field_values item, false).
Proof.
  unfold item_of_node. intros Hitem Hfv Hnodes.
  do 3 (apply bind_Ok in Hitem; destruct Hitem as (? & _ & Hitem)).
  cbn [py_get] in Hitem. rewrite Hfv, bind_Ok_eq in Hitem.
  cbn [py_get] in Hitem. rewrite Hnodes, bind_Ok_eq in Hitem.
  cbn [py_iter] in Hitem. rewrite bind_Ok_eq in Hitem.
  apply bind_Ok in Hitem. destruct Hitem as ([d bad] & Hd & Hitem).
  unfold GitHubProjectItem_init in Hitem. cbn [fst snd] in Hitem.
  do 3 (apply bind_Ok in Hitem; destruct Hitem as (? & _ & Hitem)).
  apply bind_Ok in Hitem. destruct Hitem as (fv & Hfv' & Hitem).
  apply bind_Ok in Hitem. destruct Hitem as (pr & _ & Hitem).
  injection Hitem as <-. cbn. destruct bad; [discriminate|].
  rewrite validate_dict_obj in Hfv'. cbn in Hfv'. injection Hfv' as <-. exact Hd.
Qed.

(** The items that [list_project_items] returns are built, in order, from
    the item nodes of the data. *)
Lemma list_project_items_Forall2 `{Pydantic} post self project_id tr
    (data node items : pydict) (item_nodes : list json)
    (result : list GitHubProjectItem.t) :
  response_data (post (request_of self ListProjectItems
                         {[ "projectId" := JStr project_id ]})) = Ok (JObj data) ->
  data !! "node" = Some (JObj node) ->
  node !! "items" = Some (JObj items) ->
  items !! "nodes" = Some (JList item_nodes) ->
  outcome (list_project_items post self project_id) tr = Ok result ->
  Forall2 (fun item_node item => item_of_node project_id item_node = Ok item)
    item_nodes result.
Proof.
  intros Hdata Hnode Hitems Hnodes Hresult. unfold list_project_items in Hresult.
  rewrite outcome_execute_then, outcome_execute_query, Hdata in Hresult.
  unfold Ok at 1 in Hresult. cbv beta iota in Hresult. rewrite outcome_lift in Hresult.
  cbn [py_get] in Hresult. rewrite Hnode, bind_Ok_eq in Hresult.
  cbn [py_get] in Hresult. rewrite Hitems, bind_Ok_eq in Hresult.
  cbn [py_get] in Hresult. rewrite Hnodes, bind_Ok_eq in Hresult.
  cbn [py_iter] in Hresult. rewrite bind_Ok_eq in Hresult.
  now apply comprehension_Forall2.
Qed.

(** C10.  In [list_project_items], when several field-value nodes of one
    item resolve the same name, not empty, the field_values of the item
    returned for it hold that name once, with the value extracted from the
    last of them: the node [n] below resolves [k] and no node after it
    does. *)
Theorem field_values_last_wins `{Pydantic} (post : request -> http_response)
    (self : GitHubClient.t) (project_id : string) (tr : list request)
    (data : pydict) (i : nat) (before after : list json) (n : json) (k : string)
    (items : list GitHubProjectItem.t) :
  response_data (post (request_of self ListProjectItems
                         {[ "projectId" := JStr project_id ]})) = Ok (JObj data) ->
  item_field_value_nodes data i (before ++ n :: after) ->
  field_name n JNull = Ok (JStr k) -> k <> "" ->
  Forall (fun later => field_name later JNull <> Ok (JStr k)) after ->
  outcome (list_project_items post self project_id) tr = Ok items ->
  exists item v,
    items !! i = Some item /\
    extracted_value n = Ok v /\
    GitHubProjectItem.field_values item !! k = Some v /\
    count_occ String.string_dec (dict_keys (GitHubProjectItem.field_values item)) k = 1%nat.
Proof.
  intros Hdata (node & its & item_nodes & m & fvs & Hnode & Hits & Hnodes & Hi & Hfv & Hfvs)
    Hname Hk Hafter Hitems.
  pose proof (list_project_items_Forall2 _ _ _ _ _ _ _ _ _ Hdata Hnode Hits Hnodes Hitems)
    as Hall.
  destruct (Forall2_lookup_l _ _ _ _ _ Hall Hi) as (item & Hitem & Hbuilt).
  pose proof (item_of_node_field_values _ _ _ _ _ Hbuilt Hfv Hfvs) as Hflat.
  destruct (field_values_of_last_wins _ _ _ _ _ _ Hflat Hname Hk Hafter)
    as (v & Hv & Hbound & Honce).
  exists item, v. auto.
Qed.

Lemma field_values_last_wins_witness :
  exists item v,
    [GitHubProjectItem.new "PVTI_1" "ISSUE" None
       {[ "Status" := JStr "Done"; "Points" := JInt 3 ]} {[ "id" := JStr "PVT_1" ]}]
      !! 0%nat = Some item /\
    extracted_value (field_value_node "Status" "name" (JStr "Done")) = Ok v /\
    GitHubProjectItem.field_values item !! "Status" = Some v /\
    count_occ String.string_dec (dict_keys (GitHubProjectItem.field_values item))
      "Status" = 1%nat.
Proof.
  apply (field_values_last_wins (H := strict_pydantic)
           (answering (data_response
              (items_data [item_node "PVTI_1" "ISSUE"
                 ([field_value_node "Status" "name" (JStr "Todo")] ++
                  field_value_node "Status" "name" (JStr "Done") ::
                  [field_value_node "Points" "number" (JInt 3)])])))
           sample_client "PVT_1" []
           (items_data [item_node "PVTI_1" "ISSUE"
              ([field_value_node "Status" "name" (JStr "Todo")] ++
               field_value_node "Status" "name" (JStr "Done") ::
               [field_value_node "Points" "number" (JInt 3)])])
           0%nat
           [field_value_node "Status" "name" (JStr "Todo")]
           [field_value_node "Points" "number" (JInt 3)]
           (field_value_node "Status" "name" (JStr "Done")) "Status").
  - reflexivity.
  - do 5 eexists. repeat split; reflexivity.
  - reflexivity.
  - discriminate.
  - repeat constructor. discriminate.
  - reflexivity.
Defined.

Lemma list_projects_example :
  outcome (list_projects (H := strict_pydantic)
             (answering (data_response
                (owner_projects_data [public_project_node; unlisted_project_node])))
             sample_client (Some "octocat") None) [] = Ok example_projects.
Proof. reflexivity. Qed.

Lemma list_projects_state_witness :
  exists projects_data nodes,
    outcome (list_projects_data
               (answering (data_response
                  (owner_projects_data [public_project_node; unlisted_project_node])))
               sample_client (Some "octocat") None) [] = Ok projects_data /\
    py_iter projects_data = Ok nodes /\
    Forall2 (fun node p =>
               (public_of node = Some (JBool true) -> GitHubProject.state p = "open") /\
               (public_of node = Some (JBool false) \/ public_of node = None ->
                GitHubProject.state p = "private") /\
               (GitHubProject.state p = "open" \/ GitHubProject.state p = "private"))
            nodes example_projects.
Proof.
  apply (list_projects_state (H := strict_pydantic)
           (answering (data_response
              (owner_projects_data [public_project_node; unlisted_project_node])))
           sample_client (Some "octocat") None [] example_projects).
  reflexivity.
Defined.

(** ** list_project_items: the value of a field *)

Lemma lacks_get (fv : pydict) (key : string) :
  lacks fv key -> py_get (JObj fv) key JNull = Ok JNull.
Proof. intros [Hk | Hk]; cbn; now rewrite Hk. Qed.

(** The coalesce returns the sole value of a node when that value is truthy. *)
Lemma extracted_value_sole_truthy (fv : pydict) (v : json) :
  carries fv v -> truthy v = true -> extracted_value (JObj fv) = Ok v.
Proof.
  intros [_ Hv] Ht. unfold extracted_value.
  destruct Hv as [(Hv & Hnumber & Hname) | [(Htext & Hv & Hname) | (Htext & Hnumber & Hv)]].
  - rewrite (lacks_get _ _ Hnumber), (lacks_get _ _ Hname). cbn. rewrite Hv.
    unfold py_or. cbn -[truthy]. now rewrite Ht, Ht.
  - rewrite (lacks_get _ _ Htext), (lacks_get _ _ Hname). cbn. rewrite Hv.
    unfold py_or. cbn -[truthy]. now rewrite Ht.
  - rewrite (lacks_get _ _ Htext), (lacks_get _ _ Hnumber). cbn. now rewrite Hv.
Qed.

(** C1.  The claim fails on the code for a falsy value.  The node
    {field: {name: "Points"}, number: 0} carries the number 0 as its sole
    value, and so does {field: {name: "Notes"}, text: ""} the empty text, yet
    the value extracted is [None] for both, and [None] is what
    [list_project_items] stores under "Points". *)
Theorem extracted_value_loses_falsy :
  (exists fv, field_value_node "Points" "number" (JInt 0) = JObj fv /\ carries fv (JInt 0)) /\
  extracted_value (field_value_node "Points" "number" (JInt 0)) = Ok JNull /\
  (exists fv, field_value_node "Notes" "text" (JStr "") = JObj fv /\ carries fv (JStr "")) /\
  extracted_value (field_value_node "Notes" "text" (JStr "")) = Ok JNull /\
  outcome (list_project_items (H := strict_pydantic)
             (answering (data_response
                (items_data [item_node "PVTI_1" "ISSUE"
                               [field_value_node "Points" "number" (JInt 0)]])))
             sample_client "PVT_1") [] =
    Ok [GitHubProjectItem.new "PVTI_1" "ISSUE" None {[ "Points" := JNull ]}
          {[ "id" := JStr "PVT_1" ]}].
Proof.
  split; [|split; [reflexivity|]]; [|split; [|split; reflexivity]].
  - eexists. split; [reflexivity|]. split; [discriminate|].
    right; left. repeat split; first [reflexivity | left; reflexivity].
  - eexists. split; [reflexivity|]. split; [discriminate|].
    left. repeat split; first [reflexivity | left; reflexivity].
Qed.

(** * Further properties of the client *)

(** ** The monad of requests *)

Lemma M_bind_assoc {A B C} (m : M A) (f : A -> M B) (g : B -> M C) tr :
  ((m ≫= f) ≫= g) tr = (m ≫= (fun a => f a ≫= g)) tr.
Proof. unfold mbind, M_bind. destruct (m tr) as [tr' [e | a]]; reflexivity. Qed.

Lemma requests_bind_silent {A B} (m : M A) (f : A -> M B) tr :
  (forall a, silent (f a)) -> requests (m ≫= f) tr = requests m tr.
Proof.
  intros Hf. unfold requests, mbind, M_bind.
  destruct (m tr) as [tr' [e | a]]; [reflexivity | apply Hf].
Qed.

Lemma outcome_bind_Raise {A B} (m : M A) (f : A -> M B) tr e :
  outcome m tr = Raise e -> outcome (m ≫= f) tr = Raise e.
Proof.
  unfold outcome, mbind, M_bind. destruct (m tr) as [tr' [e' | a]]; cbn; [|discriminate].
  now intros [= ->].
Qed.

Lemma requests_execute_query_alone post self q vars tr :
  requests (execute_query post self q vars) tr = tr ++ [request_of self q vars].
Proof. reflexivity. Qed.

Lemma requests_list_projects_data post self owner repo tr :
  requests (list_projects_data post self owner repo) tr =
  if truthy_opt repo && truthy_opt owner then
    tr ++ [request_of self ListProjectsByRepository
             {[ "owner" := opt_json owner; "repo" := opt_json repo ]}]
  else if truthy_opt owner then
    tr ++ [request_of self ListProjectsByOwner {[ "owner" := opt_json owner ]}]
  else tr.
Proof.
  unfold list_projects_data.
  destruct (truthy_opt repo && truthy_opt owner); [|destruct (truthy_opt owner)].
  - apply requests_execute_query. auto with silent.
  - apply requests_execute_query. auto with silent.
  - reflexivity.
Qed.

Lemma requests_list_projects `{Pydantic} post self owner repo tr :
  requests (list_projects post self owner repo) tr =
  requests (list_projects_data post self owner repo) tr.
Proof. unfold list_projects. apply requests_bind_silent. auto with silent. Qed.

Lemma requests_create_project_item `{Pydantic} post self project_id content_type
    content_id title body tr :
  requests (create_project_item post self project_id content_type content_id title body) tr =
  if String.eqb content_type "DRAFT_ISSUE" then
    tr ++ [request_of self AddProjectV2DraftIssue
             {[ "projectId" := JStr project_id;
                "title" := py_or (opt_json title) (JStr "New Draft Issue");
                "body" := opt_json body ]}]
  else if truthy_opt content_id then
    tr ++ [request_of self AddProjectV2ItemById
             {[ "projectId" := JStr project_id; "contentId" := opt_json content_id ]}]
  else tr.
Proof.
  unfold create_project_item.
  destruct (String.eqb content_type "DRAFT_ISSUE"); [|destruct (truthy_opt content_id)];
    cbn [negb].
  - apply requests_execute_query. auto with silent.
  - apply requests_execute_query. auto with silent.
  - reflexivity.
Qed.

Lemma requests_get_project `{Pydantic} post self project_id tr :
  requests (get_project post self project_id) tr =
  tr ++ [request_of self GetProject {[ "projectId" := JStr project_id ]}].
Proof.
  unfold get_project. apply requests_execute_query.
  intros data. apply silent_bind; [apply silent_lift|].
  intros project_data. apply silent_if; [apply silent_raise | apply silent_lift].
Qed.

Lemma requests_list_project_items `{Pydantic} post self project_id tr :
  requests (list_project_items post self project_id) tr =
  tr ++ [request_of self ListProjectItems {[ "projectId" := JStr project_id ]}].
Proof. unfold list_project_items. apply requests_execute_query. auto with silent. Qed.

Lemma requests_update_project_item `{Pydantic} post self project_id item_id field_updates tr :
  requests (update_project_item post self project_id item_id field_updates) tr =
  tr ++ [request_of self GetProjectItem {[ "itemId" := JStr item_id ]}].
Proof.
  unfold update_project_item. apply requests_execute_query.
  intros data. apply silent_bind; [apply silent_lift|].
  intros item_data. apply silent_if; [apply silent_raise | apply silent_lift].
Qed.

Lemma requests_delete_project_item post self project_id item_id tr :
  requests (delete_project_item post self project_id item_id) tr =
  tr ++ [request_of self DeleteProjectV2Item
           {[ "projectId" := JStr project_id; "itemId" := JStr item_id ]}].
Proof. unfold delete_project_item. apply requests_execute_query. auto with silent. Qed.

(** ** What each method sends *)

(** X1.  [get_project] and [list_project_items] send exactly one request on
    every call, a query whose only variable is the project identifier;
    [delete_project_item] sends exactly one request, the delete mutation with
    the two identifiers.  None of them sends anything else, whatever the
    network answers. *)
Theorem single_request_methods `{Pydantic} (post : request -> http_response)
    (self : GitHubClient.t) (project_id item_id : string) (tr : list request) :
  requests (get_project post self project_id) tr =
    tr ++ [request_of self GetProject {[ "projectId" := JStr project_id ]}] /\
  requests (list_project_items post self project_id) tr =
    tr ++ [request_of self ListProjectItems {[ "projectId" := JStr project_id ]}] /\
  requests (delete_project_item post self project_id item_id) tr =
    tr ++ [request_of self DeleteProjectV2Item
             {[ "projectId" := JStr project_id; "itemId" := JStr item_id ]}] /\
  is_mutation GetProject = false /\ is_mutation ListProjectItems = false /\
  is_mutation DeleteProjectV2Item = true.
Proof.
  split; [apply requests_get_project|].
  split; [apply requests_list_project_items|].
  split; [apply requests_delete_project_item|]. repeat split.
Qed.

Lemma samo_list_projects `{Pydantic} post self owner repo :
  sends_at_most_one self (list_projects post self owner repo).
Proof.
  intros tr. rewrite requests_list_projects, requests_list_projects_data.
  destruct (truthy_opt repo && truthy_opt owner); [eauto|].
  destruct (truthy_opt owner); eauto.
Qed.

Lemma samo_get_project `{Pydantic} post self project_id :
  sends_at_most_one self (get_project post self project_id).
Proof. intros tr. rewrite requests_get_project. eauto. Qed.

Lemma samo_list_project_items `{Pydantic} post self project_id :
  sends_at_most_one self (list_project_items post self project_id).
Proof. intros tr. rewrite requests_list_project_items. eauto. Qed.

Lemma samo_create_project_item `{Pydantic} post self project_id content_type
    content_id title body :
  sends_at_most_one self
    (create_project_item post self project_id content_type content_id title body).
Proof.
  intros tr. rewrite requests_create_project_item.
  destruct (String.eqb content_type "DRAFT_ISSUE"); [eauto|].
  destruct (truthy_opt content_id); eauto.
Qed.

Lemma samo_update_project_item `{Pydantic} post self project_id item_id field_updates :
  sends_at_most_one self (update_project_item post self project_id item_id field_updates).
Proof. intros tr. rewrite requests_update_project_item. eauto. Qed.

Lemma samo_delete_project_item post self project_id item_id :
  sends_at_most_one self (delete_project_item post self project_id item_id).
Proof. intros tr. rewrite requests_delete_project_item. eauto. Qed.

(** X2.  No method fans out: each of the six methods sends nothing or one
    request, and that request goes to the URL of the client with the headers
    of the client. *)
Theorem methods_send_at_most_one `{Pydantic} (post : request -> http_response)
    (self : GitHubClient.t) :
  (forall owner repo, sends_at_most_one self (list_projects post self owner repo)) /\
  (forall project_id, sends_at_most_one self (get_project post self project_id)) /\
  (forall project_id, sends_at_most_one self (list_project_items post self project_id)) /\
  (forall project_id content_type content_id title body,
     sends_at_most_one self
       (create_project_item post self project_id content_type content_id title body)) /\
  (forall project_id item_id field_updates,
     sends_at_most_one self
       (update_project_item post self project_id item_id field_updates)) /\
  (forall project_id item_id,
     sends_at_most_one self (delete_project_item post self project_id item_id)).
Proof.
  repeat split; intros;
    auto using samo_list_projects, samo_get_project, samo_list_project_items,
      samo_create_project_item, samo_update_project_item, samo_delete_project_item.
Qed.

(** ** Failures of the request *)

Lemma outcome_execute_Raise post self q vars {B} (f : json -> M B) tr e :
  response_data (post (request_of self q vars)) = Raise e ->
  outcome (execute_query post self q vars ≫= f) tr = Raise e.
Proof. intros He. apply outcome_bind_Raise. now rewrite outcome_execute_query. Qed.

(** X3.  When the request fails, whether in transport or with GraphQL errors
    in the body, every method that sends it raises that very exception:
    nothing is retried, replaced by a default or turned into a result. *)
Theorem failures_propagate `{Pydantic} (post : request -> http_response)
    (self : GitHubClient.t) (e : exn) (tr : list request) :
  (forall req, response_data (post req) = Raise e) ->
  (forall owner repo o, available owner o ->
     outcome (list_projects post self owner repo) tr = Raise e) /\
  (forall project_id, outcome (get_project post self project_id) tr = Raise e) /\
  (forall project_id, outcome (list_project_items post self project_id) tr = Raise e) /\
  (forall project_id content_id title body,
     outcome (create_project_item post self project_id "DRAFT_ISSUE" content_id title body) tr =
     Raise e) /\
  (forall project_id content_type content_id title body c,
     content_type <> "DRAFT_ISSUE" -> available content_id c ->
     outcome (create_project_item post self project_id content_type content_id title body) tr =
     Raise e) /\
  (forall project_id item_id field_updates,
     outcome (update_project_item post self project_id item_id field_updates) tr = Raise e) /\
  (forall project_id item_id,
     outcome (delete_project_item post self project_id item_id) tr = Raise e).
Proof.
  intros Hfail. repeat split; intros.
  - unfold list_projects. apply outcome_bind_Raise. unfold list_projects_data.
    rewrite (available_truthy _ _ H0).
    destruct (truthy_opt repo); cbn [andb]; now apply outcome_execute_Raise.
  - now apply outcome_execute_Raise.
  - now apply outcome_execute_Raise.
  - unfold create_project_item. change ("DRAFT_ISSUE" =? "DRAFT_ISSUE")%string with true.
    now apply outcome_execute_Raise.
  - unfold create_project_item. apply String.eqb_neq in H0. rewrite H0.
    rewrite (available_truthy _ _ H1). now apply outcome_execute_Raise.
  - now apply outcome_execute_Raise.
  - now apply outcome_execute_Raise.
Qed.

Lemma failures_propagate_witness :
  outcome (get_project (H := strict_pydantic)
             (answering (HttpBody (JObj {[ "errors" := JList [JStr "NOT_FOUND"];
                                            "data" := JObj {[ "node" := JNull ]} ]})))
             sample_client "PVT_1") [] = Raise (GraphQLErrors (JList [JStr "NOT_FOUND"])) /\
  outcome (delete_project_item
             (answering (HttpBody (JObj {[ "errors" := JList [JStr "NOT_FOUND"];
                                            "data" := JObj {[ "node" := JNull ]} ]})))
             sample_client "PVT_1" "PVTI_1") [] =
    Raise (GraphQLErrors (JList [JStr "NOT_FOUND"])).
Proof.
  pose proof (failures_propagate (H := strict_pydantic)
    (answering (HttpBody (JObj {[ "errors" := JList [JStr "NOT_FOUND"];
                                   "data" := JObj {[ "node" := JNull ]} ]})))
    sample_client (GraphQLErrors (JList [JStr "NOT_FOUND"])) [] (fun _ => eq_refl))
    as (_ & Hget & _ & _ & _ & _ & Hdelete).
  split; [apply Hget | apply Hdelete].
Defined.

(** ** The client's own [ValueError]s *)

Lemma nve_Ok {A} (a : A) : no_plain_ValueError (Ok a).
Proof. intros msg. discriminate. Qed.

Lemma nve_bind {A B} (m : result A) (f : A -> result B) :
  no_plain_ValueError m -> (forall a, no_plain_ValueError (f a)) -> no_plain_ValueError (m ≫= f).
Proof.
  intros Hm Hf msg Hraise. apply bind_Raise in Hraise.
  destruct Hraise as [Hraise | (a & _ & Hraise)]; [now apply Hm in Hraise | now apply Hf in Hraise].
Qed.

Lemma nve_py_get d key default : no_plain_ValueError (py_get d key default).
Proof. intros msg. apply py_get_not_ValueError. Qed.

Lemma nve_py_getitem d key : no_plain_ValueError (py_getitem d key).
Proof.
  intros msg. destruct d as [| | | | | m]; cbn; try discriminate.
  destruct (m !! key); discriminate.
Qed.

Lemma nve_py_iter v : no_plain_ValueError (py_iter v).
Proof. intros msg. destruct v; discriminate. Qed.

Lemma nve_validated {A} (o : option A) : no_plain_ValueError (validated o).
Proof. intros msg. destruct o; discriminate. Qed.

Lemma nve_validate_optional {A} (f : json -> option A) v :
  no_plain_ValueError (validate_optional f v).
Proof.
  intros msg. destruct v; cbn; try discriminate; destruct (f _); discriminate.
Qed.

Lemma nve_response_data response : no_plain_ValueError (response_data response).
Proof. intros msg. apply response_data_not_ValueError. Qed.

#[local] Hint Resolve nve_Ok nve_py_get nve_py_getitem nve_py_iter nve_validated
  nve_validate_optional nve_response_data : nve.

Ltac nve :=
  repeat first
    [ progress auto with nve
    | apply nve_bind
    | match goal with |- forall _, _ => intros ? end ].

Lemma nve_GitHubProject_init `{Pydantic} id number title body state url owner :
  no_plain_ValueError (GitHubProject_init id number title body state url owner).
Proof. unfold GitHubProject_init. nve. Qed.

Lemma nve_GitHubProjectItem_init `{Pydantic} id type content field_values foreign_key project :
  no_plain_ValueError (GitHubProjectItem_init id type content field_values foreign_key project).
Proof.
  unfold GitHubProjectItem_init. nve.
  destruct foreign_key; [intros msg; discriminate | nve].
Qed.

#[local] Hint Resolve nve_GitHubProject_init nve_GitHubProjectItem_init : nve.

Lemma nve_project_of_node `{Pydantic} node : no_plain_ValueError (project_of_node node).
Proof. unfold project_of_node. nve. Qed.

Lemma nve_comprehension {A B} (f : A -> result B) (l : list A) :
  (forall x, no_plain_ValueError (f x)) -> no_plain_ValueError (comprehension f l).
Proof. intros Hf. induction l as [|x l IH]; cbn; nve. Qed.

Lemma nve_dict_store key value acc : no_plain_ValueError (dict_store key value acc).
Proof. intros msg. destruct key; discriminate. Qed.

Lemma nve_field_name field_value default : no_plain_ValueError (field_name field_value default).
Proof. unfold field_name. nve. Qed.

Lemma nve_extracted_value field_value : no_plain_ValueError (extracted_value field_value).
Proof. unfold extracted_value. nve. Qed.

#[local] Hint Resolve nve_project_of_node nve_comprehension nve_dict_store nve_field_name
  nve_extracted_value : nve.

Lemma nve_field_values_of nodes acc : no_plain_ValueError (field_values_of nodes acc).
Proof.
  revert acc. induction nodes as [|n nodes IH]; intros acc; cbn [field_values_of]; [nve|].
  apply nve_bind; [nve|]. intros cond. destruct (truthy cond); [|apply IH].
  nve.
Qed.

#[local] Hint Resolve nve_field_values_of : nve.

Lemma nve_item_of_node `{Pydantic} project_id item :
  no_plain_ValueError (item_of_node project_id item).
Proof. unfold item_of_node. nve. Qed.

#[local] Hint Resolve nve_item_of_node : nve.

(** ** The exceptions of a computation *)

Lemma ri_Ok {A} ok (a : A) : raises_in ok (Ok a).
Proof. intros e. discriminate. Qed.

Lemma ri_Raise {A} ok (e : exn) : ok e = true -> raises_in ok (Raise e : result A).
Proof. intros He e' [= <-]. exact He. Qed.

Lemma ri_bind {A B} ok (m : result A) (f : A -> result B) :
  raises_in ok m -> (forall a, raises_in ok (f a)) -> raises_in ok (m ≫= f).
Proof.
  intros Hm Hf e Hraise. apply bind_Raise in Hraise.
  destruct Hraise as [Hraise | (a & _ & Hraise)]; [now apply Hm | now apply (Hf a)].
Qed.

Lemma ri_py_get ok d key default :
  ok AttributeError = true -> raises_in ok (py_get d key default).
Proof. intros Hok e. destruct d; cbn; intros [= <-]; exact Hok. Qed.

Lemma ri_py_getitem ok d key :
  ok TypeError = true -> (forall k, ok (KeyError k) = true) ->
  raises_in ok (py_getitem d key).
Proof.
  intros Htype Hkey e. destruct d as [| | | | | m]; cbn; try (intros [= <-]; exact Htype).
  destruct (m !! key); [discriminate|]. intros [= <-]. apply Hkey.
Qed.

Lemma ri_validated {A} ok (o : option A) :
  ok ValidationError = true -> raises_in ok (validated o).
Proof. intros Hok e. destruct o; cbn; [discriminate|]. intros [= <-]. exact Hok. Qed.

Lemma ri_validate_optional {A} ok (f : json -> option A) v :
  ok ValidationError = true -> raises_in ok (validate_optional f v).
Proof.
  intros Hok e. destruct v; cbn; try discriminate;
    destruct (f _); cbn; try discriminate; intros [= <-]; exact Hok.
Qed.

Lemma ri_project_of_node `{Pydantic} node :
  raises_in normalisation_error (project_of_node node).
Proof.
  unfold project_of_node, GitHubProject_init.
  repeat first
    [ apply ri_Ok
    | apply ri_py_get; reflexivity
    | apply ri_py_getitem; [reflexivity | intros; reflexivity]
    | apply ri_validated; reflexivity
    | apply ri_validate_optional; reflexivity
    | apply ri_bind
    | match goal with |- forall _, _ => intros ? end ].
Qed.


(** Among the exceptions of the class [ValueError] and of its subclasses,
    the normalisation of a node raises only the validation error of
    pydantic, and [_execute_query] only the failure to decode the body. *)
Lemma normalisation_ValueError e :
  normalisation_error e = true -> is_ValueError e = true -> e = ValidationError.
Proof. destruct e; cbn; congruence. Qed.



(** ** get_project *)

Lemma validate_optional_str `{Pydantic} (o : option string) :
  validate_optional validate_str (opt_json o) = Ok o.
Proof. destruct o as [s|]; cbn; [rewrite validate_str_str|]; reflexivity. Qed.

Lemma validated_Ok {A} (o : option A) (a : A) : validated o = Ok a -> o = Some a.
Proof. destruct o; cbn; [now intros [= ->] | discriminate]. Qed.

Lemma py_getitem_Ok (d : json) (key : string) (v : json) :
  py_getitem d key = Ok v -> exists m, d = JObj m /\ m !! key = Some v.
Proof.
  destruct d as [| | | | | m]; try discriminate. cbn.
  destruct (m !! key) as [w|] eqn:Hk; [|discriminate]. intros [= ->]. eauto.
Qed.

(** A project is built only from a node that is an object holding the five
    keys the constructor subscripts, each accepted by the validation. *)
Lemma project_of_node_inv `{Pydantic} (node : json) (p : GitHubProject.t) :
  project_of_node node = Ok p ->
  exists (m : pydict) id number title url owner,
    node = JObj m /\
    m !! "id" = Some id /\ validate_str id = Some (GitHubProject.id p) /\
    m !! "number" = Some number /\ validate_int number = Some (GitHubProject.number p) /\
    m !! "title" = Some title /\ validate_str title = Some (GitHubProject.title p) /\
    m !! "url" = Some url /\ validate_str url = Some (GitHubProject.url p) /\
    m !! "owner" = Some owner /\ validate_dict owner = Some (GitHubProject.owner p).
Proof.
  unfold project_of_node. intros Hp.
  apply bind_Ok in Hp. destruct Hp as (id & Hid & Hp).
  apply bind_Ok in Hp. destruct Hp as (number & Hnumber & Hp).
  apply bind_Ok in Hp. destruct Hp as (title & Htitle & Hp).
  apply bind_Ok in Hp. destruct Hp as (body & _ & Hp).
  apply bind_Ok in Hp. destruct Hp as (public & _ & Hp).
  apply bind_Ok in Hp. destruct Hp as (url & Hurl & Hp).
  apply bind_Ok in Hp. destruct Hp as (owner & Howner & Hp).
  apply py_getitem_Ok in Hid. destruct Hid as (m & -> & Hid).
  apply py_getitem_Ok in Hnumber. destruct Hnumber as (? & [= <-] & Hnumber).
  apply py_getitem_Ok in Htitle. destruct Htitle as (? & [= <-] & Htitle).
  apply py_getitem_Ok in Hurl. destruct Hurl as (? & [= <-] & Hurl).
  apply py_getitem_Ok in Howner. destruct Howner as (? & [= <-] & Howner).
  unfold GitHubProject_init in Hp.
  apply bind_Ok in Hp. destruct Hp as (id' & Hid' & Hp).
  apply bind_Ok in Hp. destruct Hp as (number' & Hnumber' & Hp).
  apply bind_Ok in Hp. destruct Hp as (title' & Htitle' & Hp).
  apply bind_Ok in Hp. destruct Hp as (body' & _ & Hp).
  apply bind_Ok in Hp. destruct Hp as (state' & _ & Hp).
  apply bind_Ok in Hp. destruct Hp as (url' & Hurl' & Hp).
  apply bind_Ok in Hp. destruct Hp as (owner' & Howner' & Hp).
  injection Hp as <-. cbn.
  exists m, id, number, title, url, owner.
  repeat split; auto using validated_Ok.
Qed.

Lemma project_of_node_Ok `{Pydantic} (m : pydict) id number title body public url owner :
  m !! "id" = Some (JStr id) -> m !! "number" = Some (JInt number) ->
  m !! "title" = Some (JStr title) ->
  py_get (JObj m) "shortDescription" JNull = Ok (opt_json body) ->
  py_get (JObj m) "public" JNull = Ok public ->
  m !! "url" = Some (JStr url) -> m !! "owner" = Some (JObj owner) ->
  project_of_node (JObj m) =
  Ok (GitHubProject.new id number title body
        (if truthy public then "open" else "private") url owner).
Proof.
  intros Hid Hnumber Htitle Hbody Hpublic Hurl Howner. unfold project_of_node.
  cbn [py_getitem]. rewrite Hid, Hnumber, Htitle, Hurl, Howner.
  cbn [mbind result_bind Ok]. rewrite Hbody. cbn [mbind result_bind Ok].
  rewrite Hpublic. cbn [mbind result_bind Ok]. unfold GitHubProject_init.
  rewrite !validate_str_str, validate_int_int, validate_optional_str, validate_dict_obj.
  reflexivity.
Qed.

(** X4.  On a successful answer [get_project] raises the not-found error
    exactly when the node is falsy: absent, null, or the empty object that a
    node of another type yields.  On a truthy node it does what the
    constructor of the project does, and the only exception under
    [ValueError] it can then raise is the validation error of pydantic.  A
    project is returned only for a node that holds id, number, title, url and
    owner, from which its attributes are validated: no project is built from
    part of a node. *)
Theorem get_project_found_or_not `{Pydantic} (post : request -> http_response)
    (self : GitHubClient.t) (project_id : string) (tr : list request) (data : pydict) :
  response_data (post (request_of self GetProject {[ "projectId" := JStr project_id ]})) =
    Ok (JObj data) ->
  (truthy (default JNull (data !! "node")) = false ->
   outcome (get_project post self project_id) tr = Raise (project_not_found project_id)) /\
  (truthy (default JNull (data !! "node")) = true ->
   outcome (get_project post self project_id) tr =
   project_of_node (default JNull (data !! "node")) /\
   forall e, outcome (get_project post self project_id) tr = Raise e ->
             is_ValueError e = true -> e = ValidationError) /\
  (forall p, outcome (get_project post self project_id) tr = Ok p ->
   exists (m : pydict) id number title url owner,
     data !! "node" = Some (JObj m) /\
     m !! "id" = Some id /\ validate_str id = Some (GitHubProject.id p) /\
     m !! "number" = Some number /\ validate_int number = Some (GitHubProject.number p) /\
     m !! "title" = Some title /\ validate_str title = Some (GitHubProject.title p) /\
     m !! "url" = Some url /\ validate_str url = Some (GitHubProject.url p) /\
     m !! "owner" = Some owner /\ validate_dict owner = Some (GitHubProject.owner p)).
Proof.
  intros Hdata.
  assert (Hcall : outcome (get_project post self project_id) tr =
                  if negb (truthy (default JNull (data !! "node")))
                  then Raise (project_not_found project_id)
                  else project_of_node (default JNull (data !! "node"))).
  { unfold get_project. rewrite outcome_execute_then, outcome_execute_query, Hdata.
    unfold Ok at 1. cbv beta iota. rewrite outcome_lift_then. cbn [py_get Ok].
    destruct (data !! "node") as [node|]; cbn [default];
      destruct (truthy _); reflexivity. }
  rewrite Hcall. split; [|split].
  - intros ->. reflexivity.
  - intros ->. split; [reflexivity|]. intros e He Hclass.
    apply normalisation_ValueError; [|exact Hclass].
    exact (ri_project_of_node _ _ He).
  - destruct (truthy (default JNull (data !! "node"))) eqn:Ht; cbn [negb]; [|discriminate].
    intros p Hp. apply project_of_node_inv in Hp.
    destruct Hp as (m & id & number & title & url & owner & Hnode & Hp).
    exists m, id, number, title, url, owner. split; [|exact Hp].
    destruct (data !! "node") as [node|]; cbn in Hnode; [now subst | discriminate].
Qed.

Lemma get_project_found_or_not_witness :
  outcome (get_project (H := strict_pydantic)
             (answering (data_response {[ "node" := JObj ∅ ]})) sample_client "PVT_9") [] =
    Raise (project_not_found "PVT_9") /\
  (outcome (get_project (H := strict_pydantic)
              (answering (data_response
                 {[ "node" := JObj {[ "id" := JInt 5; "number" := JInt 1;
                                      "title" := JStr "Roadmap"; "url" := JStr "u";
                                      "owner" := JObj ∅ ]} ]}))
              sample_client "PVT_1") [] = Raise ValidationError /\
   forall e,
     outcome (get_project (H := strict_pydantic)
                (answering (data_response
                   {[ "node" := JObj {[ "id" := JInt 5; "number" := JInt 1;
                                        "title" := JStr "Roadmap"; "url" := JStr "u";
                                        "owner" := JObj ∅ ]} ]}))
                sample_client "PVT_1") [] = Raise e ->
     is_ValueError e = true -> e = ValidationError).
Proof.
  split.
  - apply (get_project_found_or_not (H := strict_pydantic)
             (answering (data_response {[ "node" := JObj ∅ ]})) sample_client "PVT_9" []
             {[ "node" := JObj ∅ ]} eq_refl).
    reflexivity.
  - pose proof (get_project_found_or_not (H := strict_pydantic)
             (answering (data_response
                {[ "node" := JObj {[ "id" := JInt 5; "number" := JInt 1;
                                     "title" := JStr "Roadmap"; "url" := JStr "u";
                                     "owner" := JObj ∅ ]} ]}))
             sample_client "PVT_1" []
             {[ "node" := JObj {[ "id" := JInt 5; "number" := JInt 1;
                                  "title" := JStr "Roadmap"; "url" := JStr "u";
                                  "owner" := JObj ∅ ]} ]} eq_refl) as (_ & Htruthy & _).
    destruct (Htruthy eq_refl) as (_ & Hclass).
    split; [reflexivity | exact Hclass].
Defined.

(** ** Connections that are absent or cut by a null *)

Lemma connection_nodes_absent (data : pydict) k1 k2 k3 :
  path_absent data k1 k2 k3 -> connection_nodes (JObj data) k1 k2 k3 = Ok (JList []).
Proof.
  unfold connection_nodes. intros [H1 | (a & H1 & [H2 | (b & H2 & H3)])];
    cbn; rewrite H1; cbn; rewrite ?lookup_empty, ?H2; cbn;
    rewrite ?lookup_empty, ?H3; reflexivity.
Qed.

Lemma connection_nodes_null (data : pydict) k1 k2 k3 :
  path_null data k1 k2 -> connection_nodes (JObj data) k1 k2 k3 = Raise AttributeError.
Proof.
  unfold connection_nodes. intros [H1 | (a & H1 & H2)];
    cbn; rewrite H1; cbn; rewrite ?H2; reflexivity.
Qed.

Lemma outcome_list_projects `{Pydantic} post self owner repo o tr :
  available owner o ->
  outcome (list_projects post self owner repo) tr =
  (data ← response_data (post (request_of self
             (if truthy_opt repo then ListProjectsByRepository else ListProjectsByOwner)
             (if truthy_opt repo
              then {[ "owner" := opt_json owner; "repo" := opt_json repo ]}
              else {[ "owner" := opt_json owner ]})));
   projects_data ← connection_nodes data
     (if truthy_opt repo then "repository" else "repositoryOwner") "projectsV2" "nodes";
   projects ← py_iter projects_data;
   comprehension project_of_node projects).
Proof.
  intros Ho. unfold list_projects, list_projects_data, outcome.
  rewrite (available_truthy _ _ Ho).
  destruct (truthy_opt repo); cbn [andb]; rewrite M_bind_assoc;
    unfold mbind at 1, M_bind, execute_query;
    destruct (response_data _) as [e | data]; try reflexivity;
    unfold connection_nodes, mbind, M_bind, lift, result_bind;
    repeat match goal with |- context [py_get ?d ?k ?v] => destruct (py_get d k v) end;
    reflexivity.
Qed.

Lemma outcome_list_project_items `{Pydantic} post self project_id tr :
  outcome (list_project_items post self project_id) tr =
  (data ← response_data (post (request_of self ListProjectItems
                                 {[ "projectId" := JStr project_id ]}));
   items_data ← connection_nodes data "node" "items" "nodes";
   item_nodes ← py_iter items_data;
   comprehension (item_of_node project_id) item_nodes).
Proof.
  unfold list_project_items. rewrite outcome_execute_then, outcome_execute_query.
  destruct (response_data _) as [e | data]; [reflexivity|].
  rewrite outcome_lift. unfold connection_nodes, mbind, result_bind.
  repeat match goal with |- context [py_get ?d ?k ?v] => destruct (py_get d k v) end;
    reflexivity.
Qed.

(** X5.  A connection that is absent from the data is an empty list, not an
    error: when "repository" (or "repositoryOwner"), "projectsV2" or "nodes"
    is missing, [list_projects] returns the empty list, and so does
    [list_project_items] when "node", "items" or "nodes" is missing, as for a
    node that is no ProjectV2 and comes back as the empty object. *)
Theorem absent_connection_is_empty `{Pydantic} (post : request -> http_response)
    (self : GitHubClient.t) (data : pydict) (tr : list request) :
  (forall req, response_data (post req) = Ok (JObj data)) ->
  (forall owner repo o r, available owner o -> available repo r ->
     path_absent data "repository" "projectsV2" "nodes" ->
     outcome (list_projects post self owner repo) tr = Ok []) /\
  (forall owner repo o, available owner o -> unavailable repo ->
     path_absent data "repositoryOwner" "projectsV2" "nodes" ->
     outcome (list_projects post self owner repo) tr = Ok []) /\
  (forall project_id, path_absent data "node" "items" "nodes" ->
     outcome (list_project_items post self project_id) tr = Ok []).
Proof.
  intros Hdata. split; [|split].
  - intros owner repo o r Ho Hr Hpath.
    rewrite (outcome_list_projects _ _ _ _ _ _ Ho), Hdata, (available_truthy _ _ Hr).
    cbn [mbind result_bind Ok]. now rewrite (connection_nodes_absent _ _ _ _ Hpath).
  - intros owner repo o Ho Hr Hpath.
    rewrite (outcome_list_projects _ _ _ _ _ _ Ho), Hdata, (unavailable_falsy _ Hr).
    cbn [mbind result_bind Ok]. now rewrite (connection_nodes_absent _ _ _ _ Hpath).
  - intros project_id Hpath. rewrite outcome_list_project_items, Hdata.
    cbn [mbind result_bind Ok]. now rewrite (connection_nodes_absent _ _ _ _ Hpath).
Qed.

Lemma absent_connection_is_empty_witness :
  outcome (list_projects (H := strict_pydantic) (answering (data_response ∅))
             sample_client (Some "octocat") None) [] = Ok [] /\
  outcome (list_project_items (H := strict_pydantic)
             (answering (data_response {[ "node" := JObj ∅ ]})) sample_client "I_1") [] =
    Ok [].
Proof.
  split.
  - pose proof (absent_connection_is_empty (H := strict_pydantic)
      (answering (data_response ∅)) sample_client ∅ [] (fun _ => eq_refl))
      as (_ & Howner & _).
    apply (Howner (Some "octocat") None "octocat").
    + split; [reflexivity | discriminate].
    + left; reflexivity.
    + left; reflexivity.
  - pose proof (absent_connection_is_empty (H := strict_pydantic)
      (answering (data_response {[ "node" := JObj ∅ ]})) sample_client
      {[ "node" := JObj ∅ ]} [] (fun _ => eq_refl)) as (_ & _ & Hitems).
    apply Hitems. right. exists ∅. split; [reflexivity | left; reflexivity].
Defined.

Lemma outcome_create_project_item `{Pydantic} post self project_id content_type
    content_id title body tr :
  outcome (create_project_item post self project_id content_type content_id title body) tr =
  if String.eqb content_type "DRAFT_ISSUE" then
    data ← response_data (post (request_of self AddProjectV2DraftIssue
              {[ "projectId" := JStr project_id;
                 "title" := py_or (opt_json title) (JStr "New Draft Issue");
                 "body" := opt_json body ]}));
    payload ← py_get data "addProjectV2DraftIssue" (JObj ∅);
    item_data ← py_get payload "projectItem" JNull;
    created_item project_id item_data
  else if truthy_opt content_id then
    data ← response_data (post (request_of self AddProjectV2ItemById
              {[ "projectId" := JStr project_id; "contentId" := opt_json content_id ]}));
    payload ← py_get data "addProjectV2ItemById" (JObj ∅);
    item_data ← py_get payload "item" JNull;
    created_item project_id item_data
  else Raise (ValueError content_id_required).
Proof.
  unfold create_project_item.
  destruct (String.eqb content_type "DRAFT_ISSUE"); [|destruct (truthy_opt content_id)];
    cbn [negb]; try reflexivity;
    rewrite outcome_execute_then, outcome_execute_query;
    destruct (response_data _) as [e | data]; reflexivity.
Qed.

Lemma outcome_delete_project_item post self project_id item_id tr :
  outcome (delete_project_item post self project_id item_id) tr =
  (data ← response_data (post (request_of self DeleteProjectV2Item
              {[ "projectId" := JStr project_id; "itemId" := JStr item_id ]}));
   payload ← py_get data "deleteProjectV2Item" (JObj ∅);
   deletedItemId ← py_get payload "deletedItemId" JNull;
   Ok (truthy deletedItemId)).
Proof.
  unfold delete_project_item. rewrite outcome_execute_then, outcome_execute_query.
  destruct (response_data _) as [e | data]; reflexivity.
Qed.

(** X6.  A null where the chained [.get] expects an object is not treated as
    absent: [list_projects] raises [AttributeError] when the repository or the
    owner resolves to null, [list_project_items] when the node or its items
    are null, and [create_project_item] and [delete_project_item] when the
    payload of the mutation is null. *)
Theorem null_cuts_raise `{Pydantic} (post : request -> http_response)
    (self : GitHubClient.t) (data : pydict) (tr : list request) :
  (forall req, response_data (post req) = Ok (JObj data)) ->
  (forall owner repo o r, available owner o -> available repo r ->
     path_null data "repository" "projectsV2" ->
     outcome (list_projects post self owner repo) tr = Raise AttributeError) /\
  (forall owner repo o, available owner o -> unavailable repo ->
     path_null data "repositoryOwner" "projectsV2" ->
     outcome (list_projects post self owner repo) tr = Raise AttributeError) /\
  (forall project_id, path_null data "node" "items" ->
     outcome (list_project_items post self project_id) tr = Raise AttributeError) /\
  (forall project_id content_id title body,
     data !! "addProjectV2DraftIssue" = Some JNull ->
     outcome (create_project_item post self project_id "DRAFT_ISSUE" content_id title body) tr =
     Raise AttributeError) /\
  (forall project_id content_type content_id title body c,
     content_type <> "DRAFT_ISSUE" -> available content_id c ->
     data !! "addProjectV2ItemById" = Some JNull ->
     outcome (create_project_item post self project_id content_type content_id title body) tr =
     Raise AttributeError) /\
  (forall project_id item_id,
     data !! "deleteProjectV2Item" = Some JNull ->
     outcome (delete_project_item post self project_id item_id) tr = Raise AttributeError).
Proof.
  intros Hdata. repeat split.
  - intros owner repo o r Ho Hr Hpath.
    rewrite (outcome_list_projects _ _ _ _ _ _ Ho), Hdata, (available_truthy _ _ Hr).
    cbn [mbind result_bind Ok]. now rewrite (connection_nodes_null _ _ _ _ Hpath).
  - intros owner repo o Ho Hr Hpath.
    rewrite (outcome_list_projects _ _ _ _ _ _ Ho), Hdata, (unavailable_falsy _ Hr).
    cbn [mbind result_bind Ok]. now rewrite (connection_nodes_null _ _ _ _ Hpath).
  - intros project_id Hpath. rewrite outcome_list_project_items, Hdata.
    cbn [mbind result_bind Ok]. now rewrite (connection_nodes_null _ _ _ _ Hpath).
  - intros project_id content_id title body Hnull.
    rewrite outcome_create_project_item.
    change ("DRAFT_ISSUE" =? "DRAFT_ISSUE")%string with true. cbv iota. rewrite Hdata.
    cbn [mbind result_bind Ok py_get]. now rewrite Hnull.
  - intros project_id content_type content_id title body c Hct Hc Hnull.
    apply String.eqb_neq in Hct.
    rewrite outcome_create_project_item, Hct, (available_truthy _ _ Hc), Hdata.
    cbn [mbind result_bind Ok py_get]. now rewrite Hnull.
  - intros project_id item_id Hnull. rewrite outcome_delete_project_item, Hdata.
    cbn [mbind result_bind Ok py_get]. now rewrite Hnull.
Qed.

Lemma null_cuts_raise_witness :
  outcome (list_projects (H := strict_pydantic)
             (answering (data_response {[ "repository" := JNull ]}))
             sample_client (Some "octocat") (Some "missing")) [] = Raise AttributeError.
Proof.
  pose proof (null_cuts_raise (H := strict_pydantic)
    (answering (data_response {[ "repository" := JNull ]})) sample_client
    {[ "repository" := JNull ]} [] (fun _ => eq_refl)) as (Hrepo & _).
  apply (Hrepo (Some "octocat") (Some "missing") "octocat" "missing").
  - split; [reflexivity | discriminate].
  - split; [reflexivity | discriminate].
  - left; reflexivity.
Defined.

(** ** create_project_item *)

Lemma created_item_inv `{Pydantic} (project_id : string) (item_data : json)
    (item : GitHubProjectItem.t) :
  created_item project_id item_data = Ok item ->
  truthy item_data = true /\
  GitHubProjectItem.field_values item = ∅ /\
  GitHubProjectItem.project item = {[ "id" := JStr project_id ]}.
Proof.
  unfold created_item. destruct (truthy item_data); cbn [negb]; [|discriminate].
  intros Hitem. split; [reflexivity|].
  do 3 (apply bind_Ok in Hitem; destruct Hitem as (? & _ & Hitem)).
  unfold GitHubProjectItem_init in Hitem.
  do 3 (apply bind_Ok in Hitem; destruct Hitem as (? & _ & Hitem)).
  apply bind_Ok in Hitem. destruct Hitem as (fv & Hfv & Hitem).
  apply bind_Ok in Hitem. destruct Hitem as (pr & Hpr & Hitem).
  injection Hitem as <-. cbn. cbn in Hfv.
  rewrite validate_dict_obj in Hfv, Hpr. cbn in Hfv, Hpr.
  injection Hfv as <-. injection Hpr as <-. split; reflexivity.
Qed.

Lemma created_item_no_payload `{Pydantic} (project_id : string) (data : pydict) k1 k2 :
  no_item_payload data k1 k2 ->
  (payload ← py_get (JObj data) k1 (JObj ∅);
   item_data ← py_get payload k2 JNull;
   created_item project_id item_data) = Raise creation_failed.
Proof.
  intros [H1 | (p & H1 & H2)]; cbn [py_get]; rewrite H1, bind_Ok_eq; cbn [py_get].
  - rewrite lookup_empty, bind_Ok_eq. reflexivity.
  - rewrite bind_Ok_eq. unfold created_item.
    destruct (p !! k2) as [v|]; cbn in H2; [rewrite H2|]; reflexivity.
Qed.

(** X7.  Whatever the mutation answers, an item that [create_project_item]
    returns has no field values and refers to the project given by the
    caller; and when the answer holds no item (the payload is missing, or its
    item is missing, null or empty) the call raises the creation error. *)
Theorem create_project_item_result `{Pydantic} (post : request -> http_response)
    (self : GitHubClient.t) (project_id content_type : string)
    (content_id title body : option string) (tr : list request) :
  let call := create_project_item post self project_id content_type content_id title body in
  (forall item, outcome call tr = Ok item ->
     GitHubProjectItem.field_values item = ∅ /\
     GitHubProjectItem.project item = {[ "id" := JStr project_id ]}) /\
  (forall data : pydict, (forall req, response_data (post req) = Ok (JObj data)) ->
     content_type = "DRAFT_ISSUE" ->
     no_item_payload data "addProjectV2DraftIssue" "projectItem" ->
     outcome call tr = Raise creation_failed) /\
  (forall (data : pydict) c, (forall req, response_data (post req) = Ok (JObj data)) ->
     content_type <> "DRAFT_ISSUE" -> available content_id c ->
     no_item_payload data "addProjectV2ItemById" "item" ->
     outcome call tr = Raise creation_failed).
Proof.
  intros call. subst call. rewrite outcome_create_project_item. split; [|split].
  - intros item Hitem.
    destruct (String.eqb content_type "DRAFT_ISSUE"); [|destruct (truthy_opt content_id)];
      [| |discriminate];
      do 3 (apply bind_Ok in Hitem; destruct Hitem as (? & _ & Hitem));
      apply created_item_inv in Hitem; tauto.
  - intros data Hdata -> Hpayload.
    change ("DRAFT_ISSUE" =? "DRAFT_ISSUE")%string with true. cbv iota.
    rewrite Hdata, bind_Ok_eq. now apply created_item_no_payload.
  - intros data c Hdata Hct Hc Hpayload.
    apply String.eqb_neq in Hct.
    rewrite Hct, (available_truthy _ _ Hc), Hdata, bind_Ok_eq.
    now apply created_item_no_payload.
Qed.

Lemma create_project_item_result_witness :
  outcome (create_project_item (H := strict_pydantic)
             (answering (data_response
                {[ "addProjectV2ItemById" := JObj {[ "item" := JNull ]} ]}))
             sample_client "PVT_1" "ISSUE" (Some "I_404") None None) [] =
    Raise creation_failed.
Proof.
  pose proof (create_project_item_result (H := strict_pydantic)
    (answering (data_response {[ "addProjectV2ItemById" := JObj {[ "item" := JNull ]} ]}))
    sample_client "PVT_1" "ISSUE" (Some "I_404") None None []) as (_ & _ & Hfailed).
  apply (Hfailed {[ "addProjectV2ItemById" := JObj {[ "item" := JNull ]} ]} "I_404").
  - intros req. reflexivity.
  - discriminate.
  - split; [reflexivity | discriminate].
  - right. exists {[ "item" := JNull ]}. split; reflexivity.
Defined.

(** X8.  The arguments that a branch of [create_project_item] does not read
    have no effect: for a draft issue the content identifier changes neither
    the request nor the outcome, and for existing content neither do title
    and body, nor which content type other than "DRAFT_ISSUE" is named. *)
Theorem create_project_item_unused `{Pydantic} (post : request -> http_response)
    (self : GitHubClient.t) (project_id : string) (tr : list request) :
  (forall content_id content_id' title body,
     create_project_item post self project_id "DRAFT_ISSUE" content_id title body tr =
     create_project_item post self project_id "DRAFT_ISSUE" content_id' title body tr) /\
  (forall content_type content_type' content_id title title' body body',
     content_type <> "DRAFT_ISSUE" -> content_type' <> "DRAFT_ISSUE" ->
     create_project_item post self project_id content_type content_id title body tr =
     create_project_item post self project_id content_type' content_id title' body' tr).
Proof.
  split.
  - reflexivity.
  - intros content_type content_type' content_id title title' body body' Hct Hct'.
    unfold create_project_item.
    apply String.eqb_neq in Hct, Hct'. now rewrite Hct, Hct'.
Qed.

Lemma create_project_item_unused_witness :
  create_project_item (H := strict_pydantic) (answering HttpFailure) sample_client
    "PVT_1" "ISSUE" (Some "I_1") (Some "a title") None [] =
  create_project_item (H := strict_pydantic) (answering HttpFailure) sample_client
    "PVT_1" "PULL_REQUEST" (Some "I_1") None (Some "a body") [].
Proof.
  apply (create_project_item_unused (H := strict_pydantic) (answering HttpFailure)
           sample_client "PVT_1" []); discriminate.
Defined.

(** X9.  The mutation that [create_project_item] sends: for a draft issue
    the title given, or "New Draft Issue" when the title is missing or empty;
    for any other content type the add-by-identifier mutation with the
    content identifier, and nothing but the argument-validation error when
    that identifier is missing or empty. *)
Theorem create_project_item_requests `{Pydantic} (post : request -> http_response)
    (self : GitHubClient.t) (project_id : string) (tr : list request) :
  (forall content_id title body t, available title t ->
     requests (create_project_item post self project_id "DRAFT_ISSUE" content_id title body) tr =
     tr ++ [request_of self AddProjectV2DraftIssue
              {[ "projectId" := JStr project_id; "title" := JStr t;
                 "body" := opt_json body ]}]) /\
  (forall content_id title body, unavailable title ->
     requests (create_project_item post self project_id "DRAFT_ISSUE" content_id title body) tr =
     tr ++ [request_of self AddProjectV2DraftIssue
              {[ "projectId" := JStr project_id; "title" := JStr "New Draft Issue";
                 "body" := opt_json body ]}]) /\
  (forall content_type content_id title body c,
     content_type <> "DRAFT_ISSUE" -> available content_id c ->
     requests (create_project_item post self project_id content_type content_id title body) tr =
     tr ++ [request_of self AddProjectV2ItemById
              {[ "projectId" := JStr project_id; "contentId" := JStr c ]}]) /\
  (forall content_type content_id title body,
     content_type <> "DRAFT_ISSUE" -> unavailable content_id ->
     create_project_item post self project_id content_type content_id title body tr =
     (tr, Raise (ValueError content_id_required))).
Proof.
  repeat split.
  - intros content_id title body t Ht. rewrite requests_create_project_item.
    change ("DRAFT_ISSUE" =? "DRAFT_ISSUE")%string with true. cbv iota.
    pose proof (available_truthy _ _ Ht) as Htruthy. destruct Ht as [-> _].
    now rewrite (py_or_truthy _ _ Htruthy).
  - intros content_id title body Ht. rewrite requests_create_project_item.
    change ("DRAFT_ISSUE" =? "DRAFT_ISSUE")%string with true. cbv iota.
    now rewrite (py_or_falsy _ _ (unavailable_falsy _ Ht)).
  - intros content_type content_id title body c Hct Hc.
    apply String.eqb_neq in Hct.
    rewrite requests_create_project_item, Hct, (available_truthy _ _ Hc).
    now destruct Hc as [-> _].
  - intros content_type content_id title body Hct Hc.
    apply String.eqb_neq in Hct. unfold create_project_item.
    now rewrite Hct, (unavailable_falsy _ Hc).
Qed.

Lemma create_project_item_requests_witness :
  requests (create_project_item (H := strict_pydantic) (answering HttpFailure) sample_client
              "PVT_1" "DRAFT_ISSUE" None (Some "") (Some "text")) [] =
    [request_of sample_client AddProjectV2DraftIssue
       {[ "projectId" := JStr "PVT_1"; "title" := JStr "New Draft Issue";
          "body" := JStr "text" ]}] /\
  requests (create_project_item (H := strict_pydantic) (answering HttpFailure) sample_client
              "PVT_1" "PULL_REQUEST" (Some "PR_1") None None) [] =
    [request_of sample_client AddProjectV2ItemById
       {[ "projectId" := JStr "PVT_1"; "contentId" := JStr "PR_1" ]}].
Proof.
  pose proof (create_project_item_requests (H := strict_pydantic) (answering HttpFailure)
                sample_client "PVT_1" []) as (_ & Hdefault & Hcontent & _).
  split.
  - apply (Hdefault None (Some "") (Some "text")). right; reflexivity.
  - apply (Hcontent "PULL_REQUEST" (Some "PR_1") None None "PR_1");
      [discriminate | split; [reflexivity | discriminate]].
Defined.

(** ** The constructed client *)

(** X10.  A client that [GitHubClient.__init__] returns never has an empty
    token; the token is the argument or, when the argument is missing or
    empty, the value of [GITHUB_TOKEN]; the client addresses the GraphQL
    endpoint of GitHub and its headers are the bearer authorisation with that
    token, the JSON content type and the accept header, and no other. *)
Theorem GitHubClient_init_invariants (environ : gmap string string) (token : option string)
    (c : GitHubClient.t) :
  GitHubClient_init environ token = Ok c ->
  GitHubClient.token c <> "" /\
  (token = Some (GitHubClient.token c) \/
   (unavailable token /\ environ !! "GITHUB_TOKEN" = Some (GitHubClient.token c))) /\
  GitHubClient.base_url c = graphql_endpoint /\
  GitHubClient.headers c =
    {[ "Authorization" := "Bearer " +:+ GitHubClient.token c;
       "Content-Type" := "application/json";
       "Accept" := "application/vnd.github.v3+json" ]}.
Proof.
  unfold GitHubClient_init, opt_or, os_getenv. intros Hc.
  destruct (truthy_opt token) eqn:Htoken.
  - destruct token as [tok|]; [|discriminate].
    change (truthy_opt (Some tok)) with (truthy (JStr tok)) in Htoken.
    rewrite Htoken in Hc. cbn in Hc. injection Hc as <-. cbn.
    repeat split; auto. intros ->. discriminate.
  - apply truthy_opt_false in Htoken.
    destruct (environ !! "GITHUB_TOKEN") as [tok|] eqn:Henv; [|discriminate].
    destruct (truthy (JStr tok)) eqn:Htok; cbn in Hc; [|discriminate].
    injection Hc as <-. cbn. repeat split; auto. intros ->. discriminate.
Qed.

Lemma GitHubClient_init_invariants_witness :
  GitHubClient.token sample_client <> "" /\
  (Some "" = Some (GitHubClient.token sample_client) \/
   (unavailable (Some "") /\
    ({[ "GITHUB_TOKEN" := "dummy" ]} : gmap string string) !! "GITHUB_TOKEN" =
      Some (GitHubClient.token sample_client))) /\
  GitHubClient.base_url sample_client = graphql_endpoint /\
  GitHubClient.headers sample_client =
    {[ "Authorization" := "Bearer " +:+ GitHubClient.token sample_client;
       "Content-Type" := "application/json";
       "Accept" := "application/vnd.github.v3+json" ]}.
Proof.
  apply (GitHubClient_init_invariants {[ "GITHUB_TOKEN" := "dummy" ]} (Some "") sample_client).
  reflexivity.
Defined.

(** ** The items of list_project_items *)

Lemma item_of_node_inv `{Pydantic} (project_id : string) (node : json)
    (item : GitHubProjectItem.t) :
  item_of_node project_id node = Ok item ->
  GitHubProjectItem.project item = {[ "id" := JStr project_id ]} /\
  exists (m : pydict) id type nodes,
    node = JObj m /\
    m !! "id" = Some id /\ validate_str id = Some (GitHubProjectItem.id item) /\
    m !! "type" = Some type /\ validate_str type = Some (GitHubProjectItem.type item) /\
    field_values_of nodes (∅, false) = Ok (GitHubProjectItem.field_values item, false).
Proof.
  unfold item_of_node. intros Hitem.
  apply bind_Ok in Hitem. destruct Hitem as (id & Hid & Hitem).
  apply bind_Ok in Hitem. destruct Hitem as (type & Htype & Hitem).
  apply bind_Ok in Hitem. destruct Hitem as (content & _ & Hitem).
  apply bind_Ok in Hitem. destruct Hitem as (fieldValues & _ & Hitem).
  apply bind_Ok in Hitem. destruct Hitem as (nodes_json & _ & Hitem).
  apply bind_Ok in Hitem. destruct Hitem as (nodes & _ & Hitem).
  apply bind_Ok in Hitem. destruct Hitem as ([d bad] & Hd & Hitem).
  apply py_getitem_Ok in Hid. destruct Hid as (m & -> & Hid).
  apply py_getitem_Ok in Htype. destruct Htype as (? & [= <-] & Htype).
  unfold GitHubProjectItem_init in Hitem. cbn [fst snd] in Hitem.
  apply bind_Ok in Hitem. destruct Hitem as (id' & Hid' & Hitem).
  apply bind_Ok in Hitem. destruct Hitem as (type' & Htype' & Hitem).
  apply bind_Ok in Hitem. destruct Hitem as (content' & _ & Hitem).
  apply bind_Ok in Hitem. destruct Hitem as (fv & Hfv & Hitem).
  apply bind_Ok in Hitem. destruct Hitem as (pr & Hpr & Hitem).
  injection Hitem as <-. cbn.
  destruct bad; [discriminate|].
  rewrite validate_dict_obj in Hfv, Hpr. cbn in Hfv, Hpr.
  injection Hfv as <-. injection Hpr as <-.
  split; [reflexivity|]. exists m, id, type, nodes.
  repeat split; auto using validated_Ok.
Qed.

(** X11.  The items that [list_project_items] returns correspond one to one,
    in order, to the item nodes of the answer; each refers to the project
    identifier given by the caller, whatever the answer says, and no item has
    a field value under the empty name. *)
Theorem list_project_items_items `{Pydantic} (post : request -> http_response)
    (self : GitHubClient.t) (project_id : string) (tr : list request)
    (items : list GitHubProjectItem.t) :
  outcome (list_project_items post self project_id) tr = Ok items ->
  (exists data items_data nodes,
     response_data (post (request_of self ListProjectItems
                            {[ "projectId" := JStr project_id ]})) = Ok data /\
     connection_nodes data "node" "items" "nodes" = Ok items_data /\
     py_iter items_data = Ok nodes /\
     Forall2 (fun node item => item_of_node project_id node = Ok item) nodes items) /\
  Forall (fun item =>
            GitHubProjectItem.project item = {[ "id" := JStr project_id ]} /\
            GitHubProjectItem.field_values item !! "" = None) items.
Proof.
  rewrite outcome_list_project_items. intros Hitems.
  apply bind_Ok in Hitems. destruct Hitems as (data & Hdata & Hitems).
  apply bind_Ok in Hitems. destruct Hitems as (items_data & Hconn & Hitems).
  apply bind_Ok in Hitems. destruct Hitems as (nodes & Hnodes & Hitems).
  apply comprehension_Forall2 in Hitems.
  split; [exists data, items_data, nodes; auto|].
  clear Hnodes. induction Hitems as [|node item nodes items Hitem _ IH]; constructor; [|exact IH].
  apply item_of_node_inv in Hitem.
  destruct Hitem as (Hproject & m & id & type & fvs & _ & _ & _ & _ & _ & Hfv).
  split; [exact Hproject|].
  destruct (GitHubProjectItem.field_values item !! "") as [v|] eqn:Hempty; [|reflexivity].
  destruct (field_values_of_keys _ _ _ _ "" Hfv) as [Hacc | [Hne _]].
  - rewrite Hempty. eauto.
  - cbn in Hacc. rewrite lookup_empty in Hacc. now destruct Hacc.
  - now contradiction Hne.
Qed.

Lemma list_project_items_items_witness :
  Forall (fun item =>
            GitHubProjectItem.project item = {[ "id" := JStr "PVT_1" ]} /\
            GitHubProjectItem.field_values item !! "" = None)
    [GitHubProjectItem.new "PVTI_1" "ISSUE" None
       {[ "Status" := JStr "Done"; "Points" := JInt 3 ]} {[ "id" := JStr "PVT_1" ]}].
Proof.
  apply (list_project_items_items (H := strict_pydantic)
           (answering (data_response
              (items_data [item_node "PVTI_1" "ISSUE" example_field_values])))
           sample_client "PVT_1" []).
  reflexivity.
Defined.

(** ** Flattening well-formed nodes *)

Lemma well_formed_field_name (n : json) :
  well_formed_field_value n ->
  exists name, field_name n JNull = Ok name /\
    (truthy name = false \/ exists s, name = JStr s /\ s <> "").
Proof.
  intros (m & -> & [Hfield | (f & Hfield & Hname)]); unfold field_name; cbn;
    rewrite Hfield; cbn.
  - rewrite lookup_empty. exists JNull. auto.
  - destruct Hname as [Hname | [Hname | (s & Hname)]]; rewrite Hname.
    + exists JNull. auto.
    + exists JNull. auto.
    + exists (JStr s). split; [reflexivity|].
      destruct s as [|c s]; [left; reflexivity | right; eauto].
Qed.

Lemma well_formed_flatten (nodes : list json) (acc : pydict * bool) :
  Forall well_formed_field_value nodes ->
  exists d, field_values_of nodes acc = Ok (d, acc.2).
Proof.
  intros Hnodes. revert acc.
  induction Hnodes as [|n nodes Hn _ IH]; intros acc.
  - exists acc.1. now destruct acc.
  - destruct (well_formed_field_name _ Hn) as (name & Hname & [Hfalsy | (s & -> & Hs)]).
    + rewrite (field_values_of_dropped _ _ _ _ Hname Hfalsy). apply IH.
    + destruct (field_name_extracted _ _ Hname) as [v Hv].
      rewrite (field_values_of_named _ _ _ _ _ Hname Hs Hv).
      destruct (IH (<[s := v]> acc.1, acc.2)) as [d Hd]. exists d. exact Hd.
Qed.

(** X12.  The dict comprehension of [list_project_items] cannot fail on
    field-value nodes shaped as the query asks for them: it returns a
    mapping, with string keys only, for any list of well-formed nodes; and an
    item node with a string id and type and such field values does become an
    item. *)
Theorem field_values_of_well_formed (nodes : list json) :
  Forall well_formed_field_value nodes ->
  (forall acc, exists d, field_values_of nodes acc = Ok (d, acc.2)) /\
  (forall (H : Pydantic) (project_id : string) (item : pydict) id type content,
     item !! "id" = Some (JStr id) -> item !! "type" = Some (JStr type) ->
     py_get (JObj item) "content" JNull = Ok (opt_obj content) ->
     item !! "fieldValues" = Some (JObj {[ "nodes" := JList nodes ]}) ->
     exists d, item_of_node project_id (JObj item) =
               Ok (GitHubProjectItem.new id type content d {[ "id" := JStr project_id ]})).
Proof.
  intros Hnodes. split.
  - intros acc. now apply well_formed_flatten.
  - intros H project_id item id type content Hid Htype Hcontent Hfv.
    destruct (well_formed_flatten nodes (∅, false) Hnodes) as [d Hd].
    exists d. now apply item_of_node_Ok with (nodes := nodes).
Qed.

Lemma field_values_of_well_formed_witness :
  exists d, field_values_of [JObj ∅; field_value_node "Status" "name" (JStr "Done")]
              (∅, false) = Ok (d, false).
Proof.
  apply (field_values_of_well_formed
           [JObj ∅; field_value_node "Status" "name" (JStr "Done")]).
  repeat constructor.
  - exists ∅. split; [reflexivity | left; reflexivity].
  - eexists. split; [reflexivity|]. right.
    exists {[ "name" := JStr "Status" ]}. split; [reflexivity|].
    right; right. exists "Status". reflexivity.
Defined.

(** X13.  One field-value node that is not well formed loses the whole
    mapping: after nodes that are well formed, a node whose "field" is null,
    or a node that is no object, makes the comprehension raise
    [AttributeError], whatever the nodes that follow hold. *)
Theorem field_values_of_broken_node (before after : list json) (n : json)
    (acc : pydict * bool) :
  Forall well_formed_field_value before ->
  field_name n JNull = Raise AttributeError ->
  field_values_of (before ++ n :: after) acc = Raise AttributeError.
Proof.
  intros Hbefore Hn. rewrite field_values_of_app.
  destruct (well_formed_flatten before acc Hbefore) as [d ->].
  rewrite bind_Ok_eq. cbn [field_values_of]. now rewrite Hn.
Qed.

Lemma field_values_of_broken_node_witness :
  field_values_of
    ([field_value_node "Status" "name" (JStr "Done")] ++
     JObj {[ "field" := JNull; "text" := JStr "x" ]} ::
     [field_value_node "Points" "number" (JInt 3)]) (∅, false) = Raise AttributeError.
Proof.
  apply (field_values_of_broken_node
           [field_value_node "Status" "name" (JStr "Done")]
           [field_value_node "Points" "number" (JInt 3)]
           (JObj {[ "field" := JNull; "text" := JStr "x" ]}) (∅, false)).
  - repeat constructor. eexists. split; [reflexivity|]. right.
    exists {[ "name" := JStr "Status" ]}. split; [reflexivity|].
    right; right. exists "Status". reflexivity.
  - reflexivity.
Defined.

(** ** The ValueErrors of the methods *)

Lemma list_projects_without_owner `{Pydantic} post self owner repo tr :
  truthy_opt owner = false ->
  list_projects post self owner repo tr = (tr, Raise (ValueError either_required)).
Proof.
  intros Ho. unfold list_projects, list_projects_data.
  now rewrite Ho, andb_false_r.
Qed.

Lemma truthy_opt_available (o : option string) :
  truthy_opt o = true -> exists s, available o s.
Proof.
  destruct o as [s|]; [|discriminate]. intros Hs. exists s.
  split; [reflexivity | now apply truthy_opt_Some].
Qed.

Lemma outcome_get_project `{Pydantic} post self project_id tr :
  outcome (get_project post self project_id) tr =
  (data ← response_data (post (request_of self GetProject
                                 {[ "projectId" := JStr project_id ]}));
   project_data ← py_get data "node" JNull;
   if negb (truthy project_data) then Raise (project_not_found project_id)
   else project_of_node project_data).
Proof.
  unfold get_project. rewrite outcome_execute_then, outcome_execute_query.
  destruct (response_data _) as [e | data]; [reflexivity|].
  rewrite outcome_lift_then. rewrite bind_Ok_eq.
  destruct (py_get data "node" JNull) as [e | project_data]; [reflexivity|].
  rewrite bind_Ok_eq. destruct (truthy project_data); reflexivity.
Qed.

Lemma outcome_update_project_item `{Pydantic} post self project_id item_id field_updates tr :
  outcome (update_project_item post self project_id item_id field_updates) tr =
  (data ← response_data (post (request_of self GetProjectItem
                                 {[ "itemId" := JStr item_id ]}));
   item_data ← py_get data "node" JNull;
   if negb (truthy item_data) then Raise (item_not_found item_id)
   else
     id ← py_getitem item_data "id";
     type ← py_getitem item_data "type";
     content ← py_get item_data "content" JNull;
     GitHubProjectItem_init id type content field_updates false
       {[ "id" := JStr project_id ]}).
Proof.
  unfold update_project_item. rewrite outcome_execute_then, outcome_execute_query.
  destruct (response_data _) as [e | data]; [reflexivity|].
  rewrite outcome_lift_then. rewrite bind_Ok_eq.
  destruct (py_get data "node" JNull) as [e | item_data]; [reflexivity|].
  rewrite bind_Ok_eq. destruct (truthy item_data); reflexivity.
Qed.

Lemma nve_created_item `{Pydantic} project_id item_data :
  no_plain_ValueError (created_item project_id item_data).
Proof.
  unfold created_item. destruct (truthy item_data); cbn [negb]; [nve|].
  intros msg. discriminate.
Qed.

#[local] Hint Resolve nve_created_item : nve.

Lemma value_error_list_projects `{Pydantic} post self owner repo tr msg :
  outcome (list_projects post self owner repo) tr = Raise (ValueError msg) ->
  msg = either_required /\ unavailable owner /\
  requests (list_projects post self owner repo) tr = tr.
Proof.
  intros Hraise. destruct (truthy_opt owner) eqn:Ho.
  - exfalso. destruct (truthy_opt_available _ Ho) as [o Havailable].
    rewrite (outcome_list_projects _ _ _ _ _ _ Havailable) in Hraise.
    revert Hraise. unfold connection_nodes. nve.
  - unfold outcome, requests in *.
    rewrite (list_projects_without_owner _ _ _ _ _ Ho) in *. cbn in *.
    injection Hraise as <-. repeat split. now apply truthy_opt_false.
Qed.

Lemma value_error_get_project `{Pydantic} post self project_id tr msg :
  outcome (get_project post self project_id) tr = Raise (ValueError msg) ->
  ValueError msg = project_not_found project_id.
Proof.
  intros Hraise. rewrite outcome_get_project in Hraise.
  apply bind_Raise in Hraise. destruct Hraise as [Hraise | (data & _ & Hraise)].
  { now apply nve_response_data in Hraise. }
  apply bind_Raise in Hraise. destruct Hraise as [Hraise | (node & _ & Hraise)].
  { now apply nve_py_get in Hraise. }
  destruct (truthy node); cbn [negb] in Hraise; [|now injection Hraise as <-].
  now apply nve_project_of_node in Hraise.
Qed.

Lemma value_error_list_project_items `{Pydantic} post self project_id tr :
  no_plain_ValueError (outcome (list_project_items post self project_id) tr).
Proof. rewrite outcome_list_project_items. unfold connection_nodes. nve. Qed.

Lemma value_error_create_project_item `{Pydantic} post self project_id content_type
    content_id title body tr msg :
  outcome (create_project_item post self project_id content_type content_id title body) tr =
    Raise (ValueError msg) ->
  msg = content_id_required /\ content_type <> "DRAFT_ISSUE" /\ unavailable content_id /\
  requests (create_project_item post self project_id content_type content_id title body) tr =
    tr.
Proof.
  intros Hraise.
  rewrite requests_create_project_item. rewrite outcome_create_project_item in Hraise.
  destruct (String.eqb content_type "DRAFT_ISSUE") eqn:Hct.
  { exfalso. revert Hraise. nve. }
  destruct (truthy_opt content_id) eqn:Hc.
  { exfalso. revert Hraise. nve. }
  injection Hraise as <-. repeat split.
  - now apply String.eqb_neq.
  - now apply truthy_opt_false.
Qed.

Lemma value_error_update_project_item `{Pydantic} post self project_id item_id
    field_updates tr msg :
  outcome (update_project_item post self project_id item_id field_updates) tr =
    Raise (ValueError msg) ->
  ValueError msg = item_not_found item_id.
Proof.
  intros Hraise. rewrite outcome_update_project_item in Hraise.
  apply bind_Raise in Hraise. destruct Hraise as [Hraise | (data & _ & Hraise)].
  { now apply nve_response_data in Hraise. }
  apply bind_Raise in Hraise. destruct Hraise as [Hraise | (node & _ & Hraise)].
  { now apply nve_py_get in Hraise. }
  destruct (truthy node); cbn [negb] in Hraise; [|now injection Hraise as <-].
  exfalso. revert Hraise. nve.
Qed.

Lemma value_error_delete_project_item post self project_id item_id tr :
  no_plain_ValueError (outcome (delete_project_item post self project_id item_id) tr).
Proof. rewrite outcome_delete_project_item. nve. Qed.




(** ** One bad node fails the list *)

Lemma comprehension_first_error {A B} (f : A -> result B) (before after : list A)
    (x : A) (e : exn) :
  Forall (fun a => exists b, f a = Ok b) before -> f x = Raise e ->
  comprehension f (before ++ x :: after) = Raise e.
Proof.
  intros Hbefore Hx. induction Hbefore as [|a before [b Hb] _ IH]; cbn.
  - now rewrite Hx.
  - now rewrite Hb, bind_Ok_eq, IH.
Qed.

(** X15.  The lists are all or nothing: when one node of the answer cannot
    be turned into a project (into an item), [list_projects]
    ([list_project_items]) returns no partial list but raises the exception of
    the first such node. *)
Theorem first_bad_node_fails_the_list `{Pydantic} (post : request -> http_response)
    (self : GitHubClient.t) (data : pydict) (tr : list request)
    (before after : list json) (bad : json) (e : exn) :
  (forall req, response_data (post req) = Ok (JObj data)) ->
  (forall owner repo o,
     available owner o ->
     connection_nodes (JObj data)
       (if truthy_opt repo then "repository" else "repositoryOwner") "projectsV2" "nodes" =
       Ok (JList (before ++ bad :: after)) ->
     Forall (fun node => exists p, project_of_node node = Ok p) before ->
     project_of_node bad = Raise e ->
     outcome (list_projects post self owner repo) tr = Raise e) /\
  (forall project_id,
     connection_nodes (JObj data) "node" "items" "nodes" =
       Ok (JList (before ++ bad :: after)) ->
     Forall (fun node => exists item, item_of_node project_id node = Ok item) before ->
     item_of_node project_id bad = Raise e ->
     outcome (list_project_items post self project_id) tr = Raise e).
Proof.
  intros Hdata. split.
  - intros owner repo o Ho Hnodes Hbefore Hbad.
    rewrite (outcome_list_projects _ _ _ _ _ _ Ho), Hdata, bind_Ok_eq, Hnodes, bind_Ok_eq.
    cbn [py_iter]. rewrite bind_Ok_eq. now apply comprehension_first_error.
  - intros project_id Hnodes Hbefore Hbad.
    rewrite outcome_list_project_items, Hdata, bind_Ok_eq, Hnodes, bind_Ok_eq.
    cbn [py_iter]. rewrite bind_Ok_eq. now apply comprehension_first_error.
Qed.

Lemma first_bad_node_fails_the_list_witness :
  outcome (list_projects (H := strict_pydantic)
             (answering (data_response
                (owner_projects_data
                   ([public_project_node] ++
                    JObj {[ "id" := JStr "PVT_3"; "number" := JInt 3;
                            "title" := JStr "Ideas" ]} :: [unlisted_project_node]))))
             sample_client (Some "octocat") None) [] = Raise (KeyError "url").
Proof.
  pose proof (first_bad_node_fails_the_list (H := strict_pydantic)
    (answering (data_response
       (owner_projects_data
          ([public_project_node] ++
           JObj {[ "id" := JStr "PVT_3"; "number" := JInt 3; "title" := JStr "Ideas" ]} ::
           [unlisted_project_node]))))
    sample_client _ [] [public_project_node] [unlisted_project_node]
    (JObj {[ "id" := JStr "PVT_3"; "number" := JInt 3; "title" := JStr "Ideas" ]})
    (KeyError "url") (fun _ => eq_refl)) as (Hprojects & _).
  apply (Hprojects (Some "octocat") None "octocat").
  - split; [reflexivity | discriminate].
  - reflexivity.
  - repeat constructor. eexists. reflexivity.
  - reflexivity.
Defined.

(** * The dispatcher *)

Lemma init_from_environment (environ : gmap string string) tok :
  available (environ !! "GITHUB_TOKEN") tok ->
  GitHubClient_init environ None = Ok (env_client tok).
Proof.
  intros [Henv Htok]. unfold GitHubClient_init, opt_or, os_getenv. cbn. rewrite Henv.
  destruct tok; [congruence | reflexivity].
Qed.

Lemma init_without_token (environ : gmap string string) :
  unavailable (environ !! "GITHUB_TOKEN") ->
  GitHubClient_init environ None = Raise (ValueError token_required).
Proof.
  intros Henv. unfold GitHubClient_init, opt_or, os_getenv. cbn.
  destruct Henv as [-> | ->]; reflexivity.
Qed.

Lemma available_or_not (o : option string) : unavailable o \/ exists s, available o s.
Proof.
  destruct o as [[|c s]|]; [left; now right | right | left; now left].
  eexists. split; [reflexivity | discriminate].
Qed.

Lemma handle_call_tool_eq `{Pydantic} post environ name arguments tr :
  handle_call_tool post environ name arguments tr =
  (requests (call_tool post environ name (default no_arguments arguments)) tr,
   match outcome (call_tool post environ name (default no_arguments arguments)) tr with
   | inr contents => contents
   | inl e => error_content e
   end).
Proof.
  unfold handle_call_tool, requests, outcome.
  destruct (call_tool _ _ _ _ tr) as [tr' [e | contents]]; reflexivity.
Qed.

Lemma call_tool_init_Raise `{Pydantic} post environ name arguments tr e :
  GitHubClient_init environ None = Raise e ->
  call_tool post environ name arguments tr = (tr, Raise e).
Proof. intros He. unfold call_tool. now rewrite He. Qed.

(** X16.  Without a token in the environment the dispatcher answers every
    call, whatever the name and the arguments, with the text of the
    configuration error, and sends nothing. *)
Theorem handle_call_tool_without_token `{Pydantic} (post : request -> http_response)
    (environ : gmap string string) (name : string) (arguments : option call_arguments)
    (tr : list request) :
  unavailable (environ !! "GITHUB_TOKEN") ->
  handle_call_tool post environ name arguments tr =
  (tr, error_content (ValueError token_required)).
Proof.
  intros Henv. unfold handle_call_tool.
  now rewrite (call_tool_init_Raise _ _ _ _ _ _ (init_without_token _ Henv)).
Qed.

Lemma handle_call_tool_without_token_witness :
  handle_call_tool (H := strict_pydantic) (answering HttpFailure) ∅ "delete_project_item"
    (Some (CallArguments {[ "project_id" := "PVT_1"; "item_id" := "PVTI_1" ]} None)) [] =
  ([], error_content (ValueError token_required)).
Proof.
  apply (handle_call_tool_without_token (H := strict_pydantic)). left; reflexivity.
Defined.

(** ** The branches of the dispatcher *)

Lemma respond_bind {A} (m : M A) (wrap : A -> tool_result) tr :
  (result ← m; respond (wrap result)) tr =
  ((m tr).1, match (m tr).2 with
             | inl e => inl e
             | inr r => inr (result_content (wrap r))
             end).
Proof. unfold mbind, M_bind. destruct (m tr) as [tr' [e | r]]; reflexivity. Qed.

Lemma lift_bind {A B} (r : result A) (f : A -> M B) tr :
  (x ← lift r; f x) tr = match r with inl e => (tr, inl e) | inr a => f a tr end.
Proof. destruct r; reflexivity. Qed.

Lemma call_tool_list_projects `{Pydantic} post environ arguments c tr :
  GitHubClient_init environ None = Ok c ->
  call_tool post environ "list_projects" arguments tr =
  (result ← list_projects post c (arguments_get arguments "owner")
              (arguments_get arguments "repo");
   respond (ProjectList result)) tr.
Proof. intros Hc. unfold call_tool. rewrite Hc. reflexivity. Qed.

Lemma call_tool_get_project `{Pydantic} post environ arguments c tr :
  GitHubClient_init environ None = Ok c ->
  call_tool post environ "get_project" arguments tr =
  (project_id ← lift (arguments_getitem arguments "project_id");
   result ← get_project post c project_id;
   respond (ProjectResult result)) tr.
Proof. intros Hc. unfold call_tool. rewrite Hc. reflexivity. Qed.

Lemma call_tool_list_project_items `{Pydantic} post environ arguments c tr :
  GitHubClient_init environ None = Ok c ->
  call_tool post environ "list_project_items" arguments tr =
  (project_id ← lift (arguments_getitem arguments "project_id");
   result ← list_project_items post c project_id;
   respond (ItemList result)) tr.
Proof. intros Hc. unfold call_tool. rewrite Hc. reflexivity. Qed.

Lemma call_tool_create_project_item `{Pydantic} post environ arguments c tr :
  GitHubClient_init environ None = Ok c ->
  call_tool post environ "create_project_item" arguments tr =
  (project_id ← lift (arguments_getitem arguments "project_id");
   content_type ← lift (arguments_getitem arguments "content_type");
   result ← create_project_item post c project_id content_type
              (arguments_get arguments "content_id") (arguments_get arguments "title")
              (arguments_get arguments "body");
   respond (ItemResult result)) tr.
Proof. intros Hc. unfold call_tool. rewrite Hc. reflexivity. Qed.

Lemma call_tool_update_project_item `{Pydantic} post environ arguments c tr :
  GitHubClient_init environ None = Ok c ->
  call_tool post environ "update_project_item" arguments tr =
  (project_id ← lift (arguments_getitem arguments "project_id");
   item_id ← lift (arguments_getitem arguments "item_id");
   result ← update_project_item post c project_id item_id
              (default ∅ (field_updates arguments));
   respond (ItemResult result)) tr.
Proof. intros Hc. unfold call_tool. rewrite Hc. reflexivity. Qed.

Lemma call_tool_delete_project_item `{Pydantic} post environ arguments c tr :
  GitHubClient_init environ None = Ok c ->
  call_tool post environ "delete_project_item" arguments tr =
  (project_id ← lift (arguments_getitem arguments "project_id");
   item_id ← lift (arguments_getitem arguments "item_id");
   result ← delete_project_item post c project_id item_id;
   respond (Deleted result)) tr.
Proof. intros Hc. unfold call_tool. rewrite Hc. reflexivity. Qed.

Lemma call_tool_unknown `{Pydantic} post environ name arguments c tr :
  GitHubClient_init environ None = Ok c -> ~ In name tool_names ->
  call_tool post environ name arguments tr = (tr, Raise (unknown_tool name)).
Proof.
  intros Hc Hname. unfold call_tool. rewrite Hc.
  assert (Hne : forall known, In known tool_names -> String.eqb name known = false).
  { intros known Hknown. apply String.eqb_neq. intros ->. now apply Hname. }
  unfold mbind at 1, M_bind, lift. cbv beta iota.
  rewrite !Hne by (cbn; tauto). reflexivity.
Qed.

(** The text of the error "Unknown tool" is no text that a known tool
    produces. *)
Lemma known_tool_not_unknown `{Pydantic} post environ name arguments tr :
  In name tool_names ->
  (handle_call_tool post environ name arguments tr).2 <> error_content (unknown_tool name).
Proof.
  intros Hname. rewrite handle_call_tool_eq. cbn [snd]. unfold outcome.
  destruct (GitHubClient_init environ None) as [e | c] eqn:Hc.
  { rewrite (call_tool_init_Raise _ _ _ _ _ _ Hc). cbn [snd].
    unfold GitHubClient_init, opt_or, os_getenv in Hc. cbn in Hc.
    destruct (environ !! "GITHUB_TOKEN") as [tok|]; [destruct tok|];
      cbn in Hc; try discriminate; injection Hc as <-;
      cbn in Hname; intros [= Hmsg]; revert Hmsg;
      destruct Hname as [<- | [<- | [<- | [<- | [<- | [<- | []]]]]]]; discriminate. }
  cbn in Hname. destruct Hname as [<- | [<- | [<- | [<- | [<- | [<- | []]]]]]].
  - rewrite (call_tool_list_projects _ _ _ _ _ Hc), respond_bind. cbn [snd].
    destruct (list_projects _ _ _ _ tr).2 as [e | r] eqn:Hcall; [|discriminate].
    intros [= ->]. apply value_error_list_projects in Hcall. now destruct Hcall.
  - rewrite (call_tool_get_project _ _ _ _ _ Hc), lift_bind.
    destruct (arguments_getitem _ _) as [e | project_id] eqn:Hid.
    { unfold arguments_getitem in Hid. destruct (_ !! _); [discriminate|].
      injection Hid as <-. discriminate. }
    rewrite respond_bind. cbn [snd].
    destruct (get_project _ _ _ tr).2 as [e | r] eqn:Hcall; [|discriminate].
    intros [= ->]. apply value_error_get_project in Hcall. discriminate.
  - rewrite (call_tool_list_project_items _ _ _ _ _ Hc), lift_bind.
    destruct (arguments_getitem _ _) as [e | project_id] eqn:Hid.
    { unfold arguments_getitem in Hid. destruct (_ !! _); [discriminate|].
      injection Hid as <-. discriminate. }
    rewrite respond_bind. cbn [snd].
    destruct (list_project_items _ _ _ tr).2 as [e | r] eqn:Hcall; [|discriminate].
    intros [= ->]. now apply value_error_list_project_items in Hcall.
  - rewrite (call_tool_create_project_item _ _ _ _ _ Hc), lift_bind.
    destruct (arguments_getitem _ "project_id") as [e | project_id] eqn:Hid.
    { unfold arguments_getitem in Hid. destruct (_ !! _); [discriminate|].
      injection Hid as <-. discriminate. }
    rewrite lift_bind.
    destruct (arguments_getitem _ "content_type") as [e | content_type] eqn:Hct.
    { unfold arguments_getitem in Hct. destruct (_ !! _); [discriminate|].
      injection Hct as <-. discriminate. }
    rewrite respond_bind. cbn [snd].
    destruct (create_project_item _ _ _ _ _ _ _ tr).2 as [e | r] eqn:Hcall; [|discriminate].
    intros [= ->]. apply value_error_create_project_item in Hcall. now destruct Hcall.
  - rewrite (call_tool_update_project_item _ _ _ _ _ Hc), lift_bind.
    destruct (arguments_getitem _ "project_id") as [e | project_id] eqn:Hid.
    { unfold arguments_getitem in Hid. destruct (_ !! _); [discriminate|].
      injection Hid as <-. discriminate. }
    rewrite lift_bind.
    destruct (arguments_getitem _ "item_id") as [e | item_id] eqn:Hitem.
    { unfold arguments_getitem in Hitem. destruct (_ !! _); [discriminate|].
      injection Hitem as <-. discriminate. }
    rewrite respond_bind. cbn [snd].
    destruct (update_project_item _ _ _ _ _ tr).2 as [e | r] eqn:Hcall; [|discriminate].
    intros [= ->]. apply value_error_update_project_item in Hcall. discriminate.
  - rewrite (call_tool_delete_project_item _ _ _ _ _ Hc), lift_bind.
    destruct (arguments_getitem _ "project_id") as [e | project_id] eqn:Hid.
    { unfold arguments_getitem in Hid. destruct (_ !! _); [discriminate|].
      injection Hid as <-. discriminate. }
    rewrite lift_bind.
    destruct (arguments_getitem _ "item_id") as [e | item_id] eqn:Hitem.
    { unfold arguments_getitem in Hitem. destruct (_ !! _); [discriminate|].
      injection Hitem as <-. discriminate. }
    rewrite respond_bind. cbn [snd].
    destruct (delete_project_item _ _ _ _ tr).2 as [e | r] eqn:Hcall; [|discriminate].
    intros [= ->]. now apply value_error_delete_project_item in Hcall.
Qed.

(** ** The dispatcher and the catalogue *)

(** X17.  The dispatcher knows exactly the tools of the catalogue.  With a
    token in the environment, a name that the catalogue does not list is
    answered with the text of the error "Unknown tool: <name>" and nothing is
    sent; a name of the catalogue is never answered with that text. *)
Theorem unknown_tool_iff_not_in_catalogue `{Pydantic} (post : request -> http_response)
    (environ : gmap string string) (tok : string) (name : string)
    (arguments : option call_arguments) (tr : list request) :
  available (environ !! "GITHUB_TOKEN") tok ->
  (~ In name (map Tool.name TOOLS) ->
   handle_call_tool post environ name arguments tr =
   (tr, error_content (ValueError ("Unknown tool: " +:+ name)))) /\
  (In name (map Tool.name TOOLS) ->
   (handle_call_tool post environ name arguments tr).2 <>
   error_content (ValueError ("Unknown tool: " +:+ name))).
Proof.
  intros Henv. split.
  - intros Hname. unfold handle_call_tool.
    now rewrite (call_tool_unknown _ _ _ _ _ _ (init_from_environment _ _ Henv) Hname).
  - apply known_tool_not_unknown.
Qed.

Lemma unknown_tool_iff_not_in_catalogue_witness :
  handle_call_tool (H := strict_pydantic) (answering HttpFailure)
    {[ "GITHUB_TOKEN" := "dummy" ]} "close_project" None [] =
  ([], error_content (ValueError "Unknown tool: close_project")).
Proof.
  apply (unknown_tool_iff_not_in_catalogue (H := strict_pydantic) (answering HttpFailure)
           {[ "GITHUB_TOKEN" := "dummy" ]} "dummy" "close_project" None []).
  - split; [reflexivity | discriminate].
  - cbn. intros Hin. repeat (destruct Hin as [Hin | Hin]; [discriminate|]). exact Hin.
Defined.

Lemma arguments_getitem_missing (arguments : call_arguments) (key : string) :
  strings arguments !! key = None -> arguments_getitem arguments key = Raise (KeyError key).
Proof. unfold arguments_getitem. now intros ->. Qed.

Lemma arguments_getitem_present (arguments : call_arguments) (key s : string) :
  strings arguments !! key = Some s -> arguments_getitem arguments key = Ok s.
Proof. unfold arguments_getitem. now intros ->. Qed.

Ltac key_error :=
  split; [reflexivity | right; right; eexists; split; [|reflexivity]; cbn; tauto].

(** X18.  A call of a tool of the catalogue that lacks one of the arguments
    the catalogue requires for it sends nothing and is answered with the text
    of an error: the configuration error when the environment has no token,
    else the argument-validation error of [list_projects] or the [KeyError]
    of a required argument. *)
Theorem missing_required_argument `{Pydantic} (post : request -> http_response)
    (environ : gmap string string) (tool : Tool.t) (key : string)
    (arguments : call_arguments) (tr : list request) :
  In tool TOOLS -> In key (required (Tool.inputSchema tool)) ->
  strings arguments !! key = None ->
  exists e,
    handle_call_tool post environ (Tool.name tool) (Some arguments) tr =
      (tr, error_content e) /\
    (e = ValueError token_required \/ e = ValueError either_required \/
     exists key', In key' (required (Tool.inputSchema tool)) /\ e = KeyError key').
Proof.
  intros Htool Hkey Hmissing. unfold handle_call_tool. cbn [default from_option id].
  destruct (available_or_not (environ !! "GITHUB_TOKEN")) as [Henv | [tok Henv]].
  { exists (ValueError token_required).
    rewrite (call_tool_init_Raise _ _ _ _ _ _ (init_without_token _ Henv)). auto. }
  pose proof (init_from_environment _ _ Henv) as Hc.
  cbn in Htool.
  destruct Htool as [<- | [<- | [<- | [<- | [<- | [<- | []]]]]]]; cbn in Hkey |- *.
  - destruct Hkey as [<- | []].
    exists (ValueError either_required).
    rewrite (call_tool_list_projects _ _ _ _ _ Hc), respond_bind.
    unfold arguments_get. rewrite Hmissing.
    rewrite list_projects_without_owner by reflexivity. auto.
  - destruct Hkey as [<- | []]. exists (KeyError "project_id").
    rewrite (call_tool_get_project _ _ _ _ _ Hc), lift_bind,
      (arguments_getitem_missing _ _ Hmissing). key_error.
  - destruct Hkey as [<- | []]. exists (KeyError "project_id").
    rewrite (call_tool_list_project_items _ _ _ _ _ Hc), lift_bind,
      (arguments_getitem_missing _ _ Hmissing). key_error.
  - rewrite (call_tool_create_project_item _ _ _ _ _ Hc), lift_bind.
    destruct Hkey as [<- | [<- | []]].
    + exists (KeyError "project_id").
      rewrite (arguments_getitem_missing _ _ Hmissing). key_error.
    + destruct (strings arguments !! "project_id") as [project_id|] eqn:Hid.
      * rewrite (arguments_getitem_present _ _ _ Hid). unfold Ok at 1. cbv beta iota.
        rewrite lift_bind, (arguments_getitem_missing _ _ Hmissing).
        exists (KeyError "content_type"). key_error.
      * rewrite (arguments_getitem_missing _ _ Hid).
        exists (KeyError "project_id"). key_error.
  - rewrite (call_tool_update_project_item _ _ _ _ _ Hc), lift_bind.
    destruct Hkey as [<- | [<- | []]].
    + exists (KeyError "project_id").
      rewrite (arguments_getitem_missing _ _ Hmissing). key_error.
    + destruct (strings arguments !! "project_id") as [project_id|] eqn:Hid.
      * rewrite (arguments_getitem_present _ _ _ Hid). unfold Ok at 1. cbv beta iota.
        rewrite lift_bind, (arguments_getitem_missing _ _ Hmissing).
        exists (KeyError "item_id"). key_error.
      * rewrite (arguments_getitem_missing _ _ Hid).
        exists (KeyError "project_id"). key_error.
  - rewrite (call_tool_delete_project_item _ _ _ _ _ Hc), lift_bind.
    destruct Hkey as [<- | [<- | []]].
    + exists (KeyError "project_id").
      rewrite (arguments_getitem_missing _ _ Hmissing). key_error.
    + destruct (strings arguments !! "project_id") as [project_id|] eqn:Hid.
      * rewrite (arguments_getitem_present _ _ _ Hid). unfold Ok at 1. cbv beta iota.
        rewrite lift_bind, (arguments_getitem_missing _ _ Hmissing).
        exists (KeyError "item_id"). key_error.
      * rewrite (arguments_getitem_missing _ _ Hid).
        exists (KeyError "project_id"). key_error.
Qed.

Lemma missing_required_argument_witness :
  exists e,
    handle_call_tool (H := strict_pydantic) (answering HttpFailure)
      {[ "GITHUB_TOKEN" := "dummy" ]} "create_project_item"
      (Some (CallArguments {[ "project_id" := "PVT_1"; "title" := "An idea" ]} None)) [] =
      ([], error_content e) /\
    (e = ValueError token_required \/ e = ValueError either_required \/
     exists key', In key' ["project_id"; "content_type"] /\ e = KeyError key').
Proof.
  apply (missing_required_argument (H := strict_pydantic) (answering HttpFailure)
           {[ "GITHUB_TOKEN" := "dummy" ]}
           (Tool.new "create_project_item" "Create a new item in a GitHub project"
              (InputSchema "object"
                 [ ("project_id", string_property "The ID of the project to add the item to");
                   ("content_type",
                    PropertySchema "string" "The type of content to add to the project"
                      (Some ["ISSUE"; "PULL_REQUEST"; "DRAFT_ISSUE"]) None);
                   ("content_id", string_property
                      "The ID of the existing issue or PR (required for ISSUE and PULL_REQUEST types)");
                   ("title", string_property "Title for draft issues");
                   ("body", string_property "Body content for draft issues") ]
                 ["project_id"; "content_type"]))
           "content_type"
           (CallArguments {[ "project_id" := "PVT_1"; "title" := "An idea" ]} None) []).
  - cbn. tauto.
  - cbn. tauto.
  - reflexivity.
Defined.

(** ** The requests of the dispatcher *)

Lemma samo_lift_bind {A B} (c : GitHubClient.t) (r : result A) (f : A -> M B) :
  (forall a, sends_at_most_one c (f a)) -> sends_at_most_one c (x ← lift r; f x).
Proof.
  intros Hf tr. unfold requests. rewrite lift_bind.
  destruct r as [e | a]; [now left | apply Hf].
Qed.

Lemma samo_respond {A} (c : GitHubClient.t) (m : M A) (wrap : A -> tool_result) :
  sends_at_most_one c m -> sends_at_most_one c (result ← m; respond (wrap result)).
Proof. intros Hm tr. unfold requests. rewrite respond_bind. apply Hm. Qed.

Lemma samo_call_tool `{Pydantic} post environ name arguments c :
  GitHubClient_init environ None = Ok c ->
  sends_at_most_one c (call_tool post environ name arguments).
Proof.
  intros Hc tr. unfold requests.
  destruct (in_dec String.string_dec name tool_names) as [Hname | Hname].
  - cbn in Hname. destruct Hname as [<- | [<- | [<- | [<- | [<- | [<- | []]]]]]].
    + rewrite (call_tool_list_projects _ _ _ _ _ Hc).
      apply samo_respond, samo_list_projects.
    + rewrite (call_tool_get_project _ _ _ _ _ Hc).
      apply samo_lift_bind. intros. apply samo_respond, samo_get_project.
    + rewrite (call_tool_list_project_items _ _ _ _ _ Hc).
      apply samo_lift_bind. intros. apply samo_respond, samo_list_project_items.
    + rewrite (call_tool_create_project_item _ _ _ _ _ Hc).
      do 2 (apply samo_lift_bind; intros). apply samo_respond, samo_create_project_item.
    + rewrite (call_tool_update_project_item _ _ _ _ _ Hc).
      do 2 (apply samo_lift_bind; intros). apply samo_respond, samo_update_project_item.
    + rewrite (call_tool_delete_project_item _ _ _ _ _ Hc).
      do 2 (apply samo_lift_bind; intros). apply samo_respond, samo_delete_project_item.
  - rewrite (call_tool_unknown _ _ _ _ _ _ Hc Hname). now left.
Qed.

(** X19.  Whatever the name and the arguments, one call of the dispatcher
    sends nothing or one request; a request that is sent goes to the GraphQL
    endpoint of GitHub and carries the token of the environment as bearer
    authorisation. *)
Theorem handle_call_tool_requests `{Pydantic} (post : request -> http_response)
    (environ : gmap string string) (name : string) (arguments : option call_arguments)
    (tr : list request) :
  (handle_call_tool post environ name arguments tr).1 = tr \/
  exists tok q vars,
    available (environ !! "GITHUB_TOKEN") tok /\
    (handle_call_tool post environ name arguments tr).1 =
    tr ++ [Request graphql_endpoint
             {[ "Authorization" := "Bearer " +:+ tok;
                "Content-Type" := "application/json";
                "Accept" := "application/vnd.github.v3+json" ]} q vars].
Proof.
  rewrite handle_call_tool_eq. cbn [fst].
  destruct (available_or_not (environ !! "GITHUB_TOKEN")) as [Henv | [tok Henv]].
  - left. unfold requests.
    now rewrite (call_tool_init_Raise _ _ _ _ _ _ (init_without_token _ Henv)).
  - destruct (samo_call_tool post environ name (default no_arguments arguments) _
                (init_from_environment _ _ Henv) tr) as [Hnone | (q & vars & Hone)].
    + now left.
    + right. exists tok, q, vars. split; [exact Henv | exact Hone].
Qed.

(** ** update_project_item through the dispatcher *)

Lemma update_project_item_field_values `{Pydantic} post self project_id item_id
    updates tr item :
  outcome (update_project_item post self project_id item_id updates) tr = Ok item ->
  GitHubProjectItem.field_values item = updates.
Proof.
  rewrite outcome_update_project_item. intros Hitem.
  do 2 (apply bind_Ok in Hitem; destruct Hitem as (? & _ & Hitem)).
  destruct (negb _); [discriminate|].
  do 3 (apply bind_Ok in Hitem; destruct Hitem as (? & _ & Hitem)).
  unfold GitHubProjectItem_init in Hitem.
  do 3 (apply bind_Ok in Hitem; destruct Hitem as (? & _ & Hitem)).
  apply bind_Ok in Hitem. destruct Hitem as (fv & Hfv & Hitem).
  apply bind_Ok in Hitem. destruct Hitem as (pr & _ & Hitem).
  injection Hitem as <-. cbn. rewrite validate_dict_obj in Hfv. now injection Hfv.
Qed.

(** X20.  When the tool update_project_item answers with an item, the field
    values of that item are the field_updates of the call, and they are
    empty when the call gives no field_updates: the item shown never holds a
    field value read from GitHub. *)
Theorem update_tool_echoes_arguments `{Pydantic} (post : request -> http_response)
    (environ : gmap string string) (arguments : option call_arguments)
    (tr : list request) (item : GitHubProjectItem.t) :
  (handle_call_tool post environ "update_project_item" arguments tr).2 =
    result_content (ItemResult item) ->
  GitHubProjectItem.field_values item =
    default ∅ (field_updates (default no_arguments arguments)).
Proof.
  rewrite handle_call_tool_eq. cbn [snd]. unfold outcome.
  destruct (GitHubClient_init environ None) as [e | c] eqn:Hc.
  { rewrite (call_tool_init_Raise _ _ _ _ _ _ Hc). discriminate. }
  rewrite (call_tool_update_project_item _ _ _ _ _ Hc), lift_bind.
  destruct (arguments_getitem _ "project_id") as [e | project_id]; [discriminate|].
  rewrite lift_bind.
  destruct (arguments_getitem _ "item_id") as [e | item_id]; [discriminate|].
  rewrite respond_bind. cbn [snd].
  destruct (update_project_item _ _ _ _ _ tr).2 as [e | r] eqn:Hcall; [discriminate|].
  intros [= ->]. now apply update_project_item_field_values in Hcall.
Qed.

Lemma update_tool_echoes_arguments_witness :
  GitHubProjectItem.field_values
    (GitHubProjectItem.new "PVTI_1" "ISSUE" None ∅ {[ "id" := JStr "PVT_1" ]}) =
  default ∅ (field_updates (default no_arguments
    (Some (CallArguments {[ "project_id" := "PVT_1"; "item_id" := "PVTI_1" ]} None)))).
Proof.
  apply (update_tool_echoes_arguments (H := strict_pydantic)
           (answering (data_response
              {[ "node" := JObj {[ "id" := JStr "PVTI_1"; "type" := JStr "ISSUE" ]} ]}))
           {[ "GITHUB_TOKEN" := "dummy" ]}
           (Some (CallArguments {[ "project_id" := "PVT_1"; "item_id" := "PVTI_1" ]} None))
           []).
  reflexivity.
Defined.

(** ** The order of the field-value nodes *)

(** X21.  The order of two neighbouring well-formed nodes matters only when
    both resolve the same name: if they do not, swapping them leaves the
    mapping unchanged. *)
Theorem field_values_of_swap (before after : list json) (a b : json)
    (acc : pydict * bool) :
  well_formed_field_value a -> well_formed_field_value b ->
  (forall k, k <> "" -> field_name a JNull = Ok (JStr k) ->
             field_name b JNull <> Ok (JStr k)) ->
  field_values_of (before ++ a :: b :: after) acc =
  field_values_of (before ++ b :: a :: after) acc.
Proof.
  intros Ha Hb Hdistinct. rewrite !field_values_of_app.
  destruct (field_values_of before acc) as [e | acc']; [reflexivity|].
  cbn [mbind result_bind].
  destruct (well_formed_field_name _ Ha) as (na & Hna & [Hfa | (sa & -> & Hsa)]);
    destruct (well_formed_field_name _ Hb) as (nb & Hnb & [Hfb | (sb & -> & Hsb)]).
  - now rewrite (field_values_of_dropped _ _ _ _ Hna Hfa),
      !(field_values_of_dropped _ _ _ _ Hnb Hfb), (field_values_of_dropped _ _ _ _ Hna Hfa).
  - destruct (field_name_extracted _ _ Hnb) as [vb Hvb].
    now rewrite (field_values_of_dropped _ _ _ _ Hna Hfa),
      !(field_values_of_named _ _ _ _ _ Hnb Hsb Hvb), (field_values_of_dropped _ _ _ _ Hna Hfa).
  - destruct (field_name_extracted _ _ Hna) as [va Hva].
    now rewrite (field_values_of_named _ _ _ _ _ Hna Hsa Hva),
      !(field_values_of_dropped _ _ _ _ Hnb Hfb), (field_values_of_named _ _ _ _ _ Hna Hsa Hva).
  - destruct (field_name_extracted _ _ Hna) as [va Hva].
    destruct (field_name_extracted _ _ Hnb) as [vb Hvb].
    rewrite (field_values_of_named _ _ _ _ _ Hna Hsa Hva),
      !(field_values_of_named _ _ _ _ _ Hnb Hsb Hvb),
      (field_values_of_named _ _ _ _ _ Hna Hsa Hva).
    cbn [fst snd]. rewrite insert_insert_ne; [reflexivity|].
    intros <-. now apply (Hdistinct sb Hsb Hna).
Qed.

Lemma field_values_of_swap_witness :
  field_values_of ([] ++ field_value_node "Status" "name" (JStr "Done") ::
                         field_value_node "Points" "number" (JInt 3) :: []) (∅, false) =
  field_values_of ([] ++ field_value_node "Points" "number" (JInt 3) ::
                         field_value_node "Status" "name" (JStr "Done") :: []) (∅, false).
Proof.
  apply (field_values_of_swap [] []
           (field_value_node "Status" "name" (JStr "Done"))
           (field_value_node "Points" "number" (JInt 3)) (∅, false)).
  - eexists. split; [reflexivity|]. right.
    exists {[ "name" := JStr "Status" ]}. split; [reflexivity|].
    right; right. exists "Status". reflexivity.
  - eexists. split; [reflexivity|]. right.
    exists {[ "name" := JStr "Points" ]}. split; [reflexivity|].
    right; right. exists "Points". reflexivity.
  - intros k _ [= <-]. discriminate.
Defined.
